(** * detect_secrets_server.repos.base_tracked_repo

    A shallow embedding of [BaseTrackedRepo]: the record kept for one
    tracked repository, its [scan] / [update] / [save] / [load_from_file]
    operations and the override policy of [save].

    Python objects are mutable and every call may raise, so a method is a
    function from a state to an outcome and a new state.  The state of a
    class method is the outside world (tracked files, clones, console);
    the state of an instance method is the pair of [self] and that world.
    An exception leaves the state as it was when it was raised.

    The collaborators the module imports are interfaces here:
    [PluginsConfigParser] (the codec of the plugin configuration), the
    [detect_secrets] engine, and [STORAGE_CLASS] (git access, file naming).
    The key/value side of [FileStorage] is modelled on a map of files. *)

From stdpp Require Import gmap strings list.
From Stdlib Require Import Ascii String.

Local Open Scope string_scope.

(** ** Exceptions and outcomes *)

(** [AttributeError] is what reading [self.storage] raises on a record whose
    constructor got no [base_temp_dir] (the specification calls it
    NotInitializedError); [CalledProcessError] is the failure of a git
    command (UnreachableCommitError for [get_diff]); [FileNotFoundError] is
    what [load_from_file] documents for a missing record
    (RecordNotFoundError). *)
Inductive exception : Type :=
| AttributeError
| CalledProcessError
| FileNotFoundError
| EOFError
| KeyError (key : string)
| TypeError
| ValueError
| OSError.

Inductive result (A : Type) : Type :=
| Raise (e : exception)
| Return (a : A).
Arguments Raise {A} e.
Arguments Return {A} a.

Definition is_Return {A} (o : result A) : bool :=
  match o with Return _ => true | Raise _ => false end.

(** ** A state monad with exceptions *)

Module Run.

Definition M (S A : Type) : Type := S -> result A * S.

Definition ret {S A} (a : A) : M S A := fun s => (Return a, s).

Definition raise {S A} (e : exception) : M S A := fun s => (Raise e, s).

Definition bind {S A B} (m : M S A) (k : A -> M S B) : M S B :=
  fun s => match m s with
           | (Return a, s') => k a s'
           | (Raise e, s') => (Raise e, s')
           end.

(** [attempt m] runs [m] and hands its outcome to the caller, as the
    body of a [try] does to its [except] clauses. *)
Definition attempt {S A} (m : M S A) : M S (result A) :=
  fun s => let '(o, s') := m s in (Return o, s').

Definition of_result {S A} (o : result A) : M S A := fun s => (o, s).

(** Run a computation on the second component of the state. *)
Definition on_snd {S T A} (m : M T A) : M (S * T) A :=
  fun s => let '(o, t') := m (snd s) in (o, (fst s, t')).

End Run.
Import Run.

Declare Scope run_scope.
Delimit Scope run_scope with run.
Notation "x <- m ;; k" := (bind m (fun x => k))
  (at level 100, m at next level, right associativity) : run_scope.
Notation "m ;;; k" := (bind m (fun _ => k))
  (at level 100, right associativity) : run_scope.
Local Open Scope run_scope.

(** ** Python strings *)

(** [str.lower] on the ASCII letters. *)
Definition lower_ascii (c : ascii) : ascii :=
  let n := nat_of_ascii c in
  if (65 <=? n)%nat && (n <=? 90)%nat then ascii_of_nat (n + 32) else c.

Fixpoint lower (s : string) : string :=
  match s with
  | EmptyString => EmptyString
  | String c s' => String (lower_ascii c) (lower s')
  end.

(** Truth value of an optional string: [None] and [''] are false. *)
Definition truthy (o : option string) : bool :=
  match o with
  | None => false
  | Some s => negb (String.eqb s "")
  end.

(** ** Collaborators *)

Inductive OverrideLevel : Type :=
| NEVER
| ASK_USER
| ALWAYS.

(** [PluginsConfigParser]: [to_config a] is [from_args(a).to_config()], the
    compact form that is written to the tracked file; [to_args c] is
    [from_config(c).to_args()], which may reject a malformed file. *)
Class PluginsConfigParser : Type := {
  PluginArgs : Type;
  PluginConfig : Type;
  to_config : PluginArgs -> PluginConfig;
  to_args : PluginConfig -> result PluginArgs;
}.

(** [detect_secrets.core.secrets_collection.SecretsCollection]: the plugins
    and the exclude pattern it was built with, and the secrets found. *)
Record SecretsCollection (Plugins PotentialSecret : Type) : Type := {
  plugins : Plugins;
  exclude : string;
  data : list PotentialSecret;
}.
Arguments plugins {_ _} _.
Arguments exclude {_ _} _.
Arguments data {_ _} _.

(** The scan engine.  [scan_diff secrets diff baseline_filename
    last_commit_hash repo_name] is [secrets] after
    [secrets.scan_diff(diff, ...)]. *)
Class DetectSecrets (PluginArgs : Type) : Type := {
  Plugins : Type;
  PotentialSecret : Type;
  initialize_plugins : PluginArgs -> Plugins;
  scan_diff : SecretsCollection Plugins PotentialSecret -> string ->
              string -> string -> string ->
              SecretsCollection Plugins PotentialSecret;
  load_baseline_from_string : string ->
              SecretsCollection Plugins PotentialSecret;
  get_secrets_not_in_baseline :
              SecretsCollection Plugins PotentialSecret ->
              SecretsCollection Plugins PotentialSecret ->
              SecretsCollection Plugins PotentialSecret;
}.

(** A storage object after [setup(repo_url)]: the directory it is rooted at
    and the repository it tracks. *)
Record Storage : Type := {
  root : string;
  repo_url : string;
}.

(** [STORAGE_CLASS]: the git operations of the storage object act on a
    state [Git] of clones and remotes; [hash_filename] and
    [get_tracked_file_location] name the tracked file of a repository;
    [repository_name_of] derives the human friendly name from the url;
    [put_error] is the error, if any, that writing the tracked file of a
    key meets in the present state. *)
Class StorageClass : Type := {
  Git : Type;
  hash_filename : string -> string;
  get_tracked_file_location : string -> string -> string;
  repository_name_of : string -> string;
  put_error : string -> string -> Git -> option exception;
  setup_directories : string -> string -> Git -> result unit * Git;
  clone_and_pull_master : Storage -> Git -> result unit * Git;
  get_diff : Storage -> string -> Git -> result string * Git;
  get_last_commit_hash : Storage -> Git -> result string * Git;
  get_baseline_file : Storage -> string -> Git -> result (option string) * Git;
}.

(** ** The world and the record *)

Inductive stream : Type :=
| Stdout
| Stderr.

Section TrackedRepo.

Context {codec : PluginsConfigParser}.
Context {engine : DetectSecrets PluginArgs}.
Context {storage_class : StorageClass}.

Abbreviation Secrets := (SecretsCollection Plugins PotentialSecret).

(** A value of the dictionary written to, and read from, a tracked file.
    The file holds the configuration in its compact form;
    [modify_tracked_file_contents] puts the arguments in its place. *)
Inductive value : Type :=
| VStr (s : string)
| VConfig (c : PluginConfig)
| VArgs (a : PluginArgs).

(** The outside world: the tracked files by path, the state of the git
    clones, the lines waiting on standard input, where [sys.stdout]
    points, and what was shown on the console. *)
Record World : Type := {
  files : gmap string (gmap string value);
  git : Git;
  stdin : list string;
  sys_stdout : stream;
  console : list (stream * string);
}.

(** The attributes of a [BaseTrackedRepo]; [storage] is [None] as long as
    the attribute was never assigned. *)
Record BaseTrackedRepo : Type := {
  last_commit_hash : string;
  repo : string;
  crontab : string;
  plugin_config : PluginArgs;
  baseline_filename : string;
  exclude_regex : string;
  storage : option Storage;
}.

Definition set_last_commit_hash (sha : string) (r : BaseTrackedRepo)
  : BaseTrackedRepo :=
  {| last_commit_hash := sha;
     repo := repo r;
     crontab := crontab r;
     plugin_config := plugin_config r;
     baseline_filename := baseline_filename r;
     exclude_regex := exclude_regex r;
     storage := storage r |}.

Definition set_storage (st : Storage) (r : BaseTrackedRepo)
  : BaseTrackedRepo :=
  {| last_commit_hash := last_commit_hash r;
     repo := repo r;
     crontab := crontab r;
     plugin_config := plugin_config r;
     baseline_filename := baseline_filename r;
     exclude_regex := exclude_regex r;
     storage := Some st |}.

Definition set_git (g : Git) (w : World) : World :=
  {| files := files w; git := g; stdin := stdin w;
     sys_stdout := sys_stdout w; console := console w |}.

Definition set_files (f : gmap string (gmap string value)) (w : World)
  : World :=
  {| files := f; git := git w; stdin := stdin w;
     sys_stdout := sys_stdout w; console := console w |}.

Definition set_sys_stdout (s : stream) (w : World) : World :=
  {| files := files w; git := git w; stdin := stdin w;
     sys_stdout := s; console := console w |}.

(** A class method runs on the world, an instance method on [self] and
    the world. *)
Definition ClassMethod (A : Type) : Type := M World A.
Definition Method (A : Type) : Type := M (BaseTrackedRepo * World) A.

(** A git operation of the storage object, run on the world. *)
Definition call_git {A} (op : Git -> result A * Git) : ClassMethod A :=
  fun w => let '(o, g) := op (git w) in (o, set_git g w).

Definition self : Method BaseTrackedRepo :=
  fun s => (Return (fst s), s).

(** [self.storage]: an [AttributeError] when it was never assigned. *)
Definition self_storage : Method Storage :=
  r <- self ;;
  match storage r with
  | Some st => ret st
  | None => raise AttributeError
  end.

(** ** The storage class: set up and the tracked files *)

(** Modelled from the spec: [FileStorage] is not among the sources.
    [initialize_storage] is the storage object before [setup]: all it knows
    is the directory it is rooted at. *)
Definition initialize_storage (base_directory : string) : string :=
  base_directory.

(** Modelled from the spec: [FileStorage.setup] sets up the local tracking
    state of the repository under the root, which may fail, and returns
    the storage object. *)
Definition setup (base_directory repo_url : string) : ClassMethod Storage :=
  call_git (setup_directories base_directory repo_url) ;;;
  ret {| root := base_directory; repo_url := repo_url |}.

(** Modelled from the spec: [FileStorage.repository_name], the human
    readable name, is derived from the url given to [setup]. *)
Definition repository_name (st : Storage) : string :=
  repository_name_of (repo_url st).

(** [os.path.isfile] on the tracked files. *)
Definition isfile (path : string) : ClassMethod bool :=
  fun w => (Return (bool_decide (is_Some (files w !! path))), w).

(** Modelled from the spec: [FileStorage.get] returns the record stored
    under the key, or fails when there is none; the slot of a key is the
    file at [get_tracked_file_location]. *)
Definition storage_get (base_directory key : string)
  : ClassMethod (gmap string value) :=
  fun w => match files w !! get_tracked_file_location base_directory key with
           | Some d => (Return d, w)
           | None => (Raise FileNotFoundError, w)
           end.

(** Modelled from the spec: [FileStorage.put] replaces the whole record
    stored under the key, or fails and leaves the tracked files alone. *)
Definition storage_put (base_directory key : string)
    (d : gmap string value) : ClassMethod unit :=
  fun w => match put_error base_directory key (git w) with
           | Some e => (Raise e, w)
           | None =>
               (Return tt,
                set_files
                  (<[get_tracked_file_location base_directory key := d]>
                     (files w)) w)
           end.

(** ** Construction *)

(** [__init__].  There is no [storage] attribute unless [base_temp_dir] is
    given and not empty. *)
Definition __init__ (repo sha : string) (plugins : PluginArgs)
    (baseline_filename exclude_regex cron : string)
    (base_temp_dir : option string) : ClassMethod BaseTrackedRepo :=
  let this := {| last_commit_hash := sha;
                 repo := repo;
                 crontab := cron;
                 plugin_config := plugins;
                 baseline_filename := baseline_filename;
                 exclude_regex := exclude_regex;
                 storage := None |} in
  if truthy base_temp_dir then
    st <- setup (initialize_storage (default "" base_temp_dir)) repo ;;
    ret (set_storage st this)
  else ret this.

(** [modify_tracked_file_contents]: the entry ['plugins'] is replaced by
    the arguments decoded from it. *)
Definition modify_tracked_file_contents (data : gmap string value)
  : result (gmap string value) :=
  match data !! "plugins" with
  | None => Raise (KeyError "plugins")
  | Some (VConfig c) =>
      match to_args c with
      | Return a => Return (<["plugins" := VArgs a]> data)
      | Raise e => Raise e
      end
  | Some _ => Raise TypeError
  end.

(** The call of [cls] with the entries of [data] as keywords.  A required
    keyword that is missing is a [TypeError], and so is a keyword [self],
    which the instance already binds; keywords [__init__] does not name
    are swallowed by its [**kwargs].  The attributes are typed as the docstring of
    [__init__] types them, so a value of another type is refused here. *)
Definition kw_string (data : gmap string value) (k : string)
  : result string :=
  match data !! k with
  | Some (VStr s) => Return s
  | _ => Raise TypeError
  end.

Definition kw_string_default (data : gmap string value) (k dflt : string)
  : result string :=
  match data !! k with
  | None => Return dflt
  | Some (VStr s) => Return s
  | Some _ => Raise TypeError
  end.

Definition kw_string_optional (data : gmap string value) (k : string)
  : result (option string) :=
  match data !! k with
  | None => Return None
  | Some (VStr s) => Return (Some s)
  | Some _ => Raise TypeError
  end.

Definition kw_args (data : gmap string value) (k : string)
  : result PluginArgs :=
  match data !! k with
  | Some (VArgs a) => Return a
  | _ => Raise TypeError
  end.

Definition kw_self (data : gmap string value) : result unit :=
  match data !! "self" with
  | None => Return tt
  | Some _ => Raise TypeError
  end.

Definition construct (data : gmap string value)
  : ClassMethod BaseTrackedRepo :=
  of_result (kw_self data) ;;;
  repo <- of_result (kw_string data "repo") ;;
  sha <- of_result (kw_string data "sha") ;;
  plugins <- of_result (kw_args data "plugins") ;;
  baseline_filename <- of_result (kw_string data "baseline_filename") ;;
  exclude_regex <- of_result (kw_string data "exclude_regex") ;;
  cron <- of_result (kw_string_default data "cron" "") ;;
  base_temp_dir <- of_result (kw_string_optional data "base_temp_dir") ;;
  __init__ repo sha plugins baseline_filename exclude_regex cron
           base_temp_dir.

(** [load_from_file]. *)
Definition load_from_file (repo_name base_directory : string)
  : ClassMethod BaseTrackedRepo :=
  let storage := initialize_storage base_directory in
  data <- storage_get storage (hash_filename repo_name) ;;
  data <- of_result (modify_tracked_file_contents data) ;;
  output <- construct data ;;
  st <- setup storage (repo output) ;;
  ret (set_storage st output).

(** ** Instance methods *)

(** The property [name]. *)
Definition name : Method string :=
st <- self_storage ;;
ret (repository_name st).

(** [cron]: the line to append to the crontab. *)
Definition cron : Method string :=
r <- self ;;
n <- name ;;
ret (crontab r ++ "    detect-secrets-server --scan-repo " ++ n).

(** [update]. *)
Definition update : Method unit :=
st <- self_storage ;;
sha <- on_snd (call_git (get_last_commit_hash st)) ;;
fun s => (Return tt, (set_last_commit_hash sha (fst s), snd s)).

(** [SecretsCollection(plugins, exclude_regex)]: nothing found yet. *)
Definition new_collection (p : Plugins) (exclude_regex : string) : Secrets :=
{| plugins := p; exclude := exclude_regex; data := [] |}.

(** [scan].  Only a [CalledProcessError] of [get_diff] is caught; the code
    below the [try] statement runs when [get_diff] returned. *)
Definition scan : Method Secrets :=
st <- self_storage ;;
on_snd (call_git (clone_and_pull_master st)) ;;;
r <- self ;;
let default_plugins := initialize_plugins (plugin_config r) in
let secrets := new_collection default_plugins (exclude_regex r) in
outcome <- attempt (st <- self_storage ;;
                    r <- self ;;
                    on_snd (call_git (get_diff st (last_commit_hash r)))) ;;
match outcome with
| Raise CalledProcessError =>
    update ;;;
    ret secrets
| Raise e => raise e
| Return diff =>
    r <- self ;;
    n <- name ;;
    let secrets :=
      scan_diff secrets diff (baseline_filename r) (last_commit_hash r) n in
    st <- self_storage ;;
    baseline <- on_snd (call_git
                          (get_baseline_file st (baseline_filename r))) ;;
    if truthy baseline then
      let baseline_collection :=
        load_baseline_from_string (default "" baseline) in
      ret (get_secrets_not_in_baseline secrets baseline_collection)
    else ret secrets
end.

(** The property [__dict__]: what is written to the tracked file. *)
Definition __dict__ (r : BaseTrackedRepo) : gmap string value :=
<["sha" := VStr (last_commit_hash r)]>
  (<["repo" := VStr (repo r)]>
     (<["plugins" := VConfig (to_config (plugin_config r))]>
        (<["cron" := VStr (crontab r)]>
           (<["baseline_filename" := VStr (baseline_filename r)]>
              (<["exclude_regex" := VStr (exclude_regex r)]> ∅))))).

(** [input(prompt)]: the prompt goes to where [sys.stdout] points, the
    answer is the next line of standard input, [EOFError] at its end. *)
Definition input (prompt : string) : ClassMethod string :=
fun w =>
  let shown := (console w ++ [(sys_stdout w, prompt)])%list in
  match stdin w with
  | [] =>
      (Raise EOFError,
       {| files := files w; git := git w; stdin := [];
          sys_stdout := sys_stdout w; console := shown |})
  | line :: rest =>
      (Return line,
       {| files := files w; git := git w; stdin := rest;
          sys_stdout := sys_stdout w; console := shown |})
  end.

Definition override_prompt (n : string) : string :=
String "034"%char
  (n ++ String "034"%char
          " repo already tracked! Do you want to override this (y|n)? ").

(** The [while] loop of [_prompt_user_override].  Each turn reads one line,
    so the lines that wait on standard input, given as [pending], bound the
    number of turns; once they are used up [input] raises [EOFError]. *)
Fixpoint ask_override (prompt : string) (pending : list string)
  : ClassMethod string :=
match pending with
| [] => input prompt
| _ :: pending' =>
    line <- input prompt ;;
    let override := lower line in
    if bool_decide (override ∈ ["y"; "n"]) then ret override
    else ask_override prompt pending'
end.

(** [_prompt_user_override]. *)
Definition _prompt_user_override : Method bool :=
on_snd (fun w => (Return tt, set_sys_stdout Stderr w)) ;;;
n <- name ;;
override <- on_snd (fun w => ask_override (override_prompt n) (stdin w) w) ;;
on_snd (fun w => (Return tt, set_sys_stdout Stdout w)) ;;;
if String.eqb override "n" then ret false else ret true.

(** [save]. *)
Definition save (override_level : OverrideLevel) : Method bool :=
n <- name ;;
st <- self_storage ;;
tracked <- on_snd (isfile (get_tracked_file_location
                             (root st) (hash_filename n))) ;;
proceed <- (if (tracked : bool) then
              match override_level with
              | NEVER => ret false
              | ASK_USER => _prompt_user_override
              | ALWAYS => ret true
              end
            else ret true) ;;
if (proceed : bool) then
  st <- self_storage ;;
  r <- self ;;
  on_snd (storage_put (root st) (hash_filename n) (__dict__ r)) ;;;
  ret true
else ret false.

(** ** Notions the properties are stated with *)

Implicit Types (r : BaseTrackedRepo) (w : World) (st : Storage).

(** [scan] takes the branch of the [except] clause: the clone was brought
    up to date and [get_diff] raised [CalledProcessError]. *)
Definition takes_except_branch r w : bool :=
  match storage r with
  | None => false
  | Some st =>
      match clone_and_pull_master st (git w) with
      | (Return _, g) =>
          match fst (get_diff st (last_commit_hash r) g) with
          | Raise CalledProcessError => true
          | _ => false
          end
      | (Raise _, _) => false
      end
  end.

(** Everything but the checkpoint is the same in both records. *)
Definition same_but_checkpoint r r' : Prop :=
  repo r' = repo r /\
  plugin_config r' = plugin_config r /\
  crontab r' = crontab r /\
  baseline_filename r' = baseline_filename r /\
  exclude_regex r' = exclude_regex r /\
  storage r' = storage r.

(** The collection [scan] starts from, and what it holds after the diff
    was scanned. *)
Definition fresh_secrets r : SecretsCollection Plugins PotentialSecret :=
  new_collection (initialize_plugins (plugin_config r)) (exclude_regex r).

Definition scanned_secrets r st (diff : string)
  : SecretsCollection Plugins PotentialSecret :=
  scan_diff (fresh_secrets r) diff (baseline_filename r) (last_commit_hash r)
            (repository_name st).

(** The path [save] checks and writes: the location, under the root of the
    storage, of the hash of the name of the record. *)
Definition tracked_file st : string :=
  get_tracked_file_location (root st) (hash_filename (repository_name st)).

(** The world after the record was put in its tracked file. *)
Definition written r st w : World :=
  set_files (<[tracked_file st := __dict__ r]> (files w)) w.

(** The record [load_from_file] builds from the tracked file of [r] when
    the stored configuration decodes to [args]. *)
Definition reloaded r (args : PluginArgs) (base : string) : BaseTrackedRepo :=
  {| last_commit_hash := last_commit_hash r;
     repo := repo r;
     crontab := crontab r;
     plugin_config := args;
     baseline_filename := baseline_filename r;
     exclude_regex := exclude_regex r;
     storage := Some {| root := base; repo_url := repo r |} |}.

(** The storage of the record, when it has one, tracks the repository of
    the record. *)
Definition tracks_own_repo r : Prop :=
  forall st, storage r = Some st -> repo_url st = repo r.

(** A line the prompt of [_prompt_user_override] takes for an answer. *)
Definition accepted (line : string) : bool :=
  bool_decide (lower line ∈ ["y"; "n"]).

(** The world after [turns] prompts were shown on standard error, with
    [pending] left on standard input and [sys.stdout] at [out]. *)
Definition prompted w (p : string) (turns : nat) (pending : list string)
    (out : stream) : World :=
  {| files := files w; git := git w; stdin := pending; sys_stdout := out;
     console := (console w ++ replicate turns (Stderr, p))%list |}.

(** The keywords [__init__] names; any other goes to its [**kwargs]. *)
Definition parameter_names : list string :=
  ["self"; "repo"; "sha"; "plugins"; "baseline_filename"; "exclude_regex";
   "cron"; "base_temp_dir"].

(** What the [put] of [save] meets, and the outcome of [save] from the
    [put] on. *)
Definition put_fails st w : option exception :=
  put_error (root st) (hash_filename (repository_name st)) (git w).

Definition after_put r st w : result bool * (BaseTrackedRepo * World) :=
  match put_fails st w with
  | Some e => (Raise e, (r, w))
  | None => (Return true, (r, written r st w))
  end.



(** The record [__init__] holds before it sets up a storage. *)
Definition bare (url sha : string) (args : PluginArgs)
    (baseline pattern schedule : string) : BaseTrackedRepo :=
  {| last_commit_hash := sha;
     repo := url;
     crontab := schedule;
     plugin_config := args;
     baseline_filename := baseline;
     exclude_regex := pattern;
     storage := None |}.

End TrackedRepo.

Arguments value {codec}.
Arguments World {codec storage_class}.
Arguments BaseTrackedRepo {codec}.

(** ** In-memory collaborators

    Small implementations of the three interfaces, on which the operations
    can be run. *)

Module Fake.

(** Arguments are a flat list [name; value; ...], the compact form pairs
    them; an odd last argument has no compact form. *)
Fixpoint pair_up (args : list string) : list (string * string) :=
  match args with
  | k :: v :: rest => (k, v) :: pair_up rest
  | _ => []
  end.

Definition flatten (config : list (string * string)) : list string :=
  flat_map (fun kv => [fst kv; snd kv]) config.

Definition codec : PluginsConfigParser :=
  {| PluginArgs := list string;
     PluginConfig := list (string * string);
     to_config := pair_up;
     to_args := fun c => Return (flatten c) |}.

(** The words of a text, separated by blanks. *)
Fixpoint words_from (word text : string) : list string :=
  match text with
  | EmptyString => if String.eqb word "" then [] else [word]
  | String c text' =>
      if Ascii.eqb c " " then
        (if String.eqb word "" then [] else [word]) ++ words_from "" text'
      else words_from (word ++ String c "") text'
  end.

Definition words (text : string) : list string := words_from "" text.

(** Every word of a diff is a secret; a baseline lists the accepted ones. *)
Definition engine : DetectSecrets (list string) :=
  {| Plugins := list string;
     PotentialSecret := string;
     initialize_plugins := fun args => args;
     scan_diff := fun secrets diff _ _ _ =>
       {| plugins := plugins secrets;
          exclude := exclude secrets;
          data := data secrets ++ words diff |};
     load_baseline_from_string := fun text =>
       {| plugins := []; exclude := ""; data := words text |};
     get_secrets_not_in_baseline := fun results baseline =>
       {| plugins := [];
          exclude := "";
          data := filter (fun s => s ∉ data baseline) (data results) |} |}.

(** A clone: the commits reachable from its head, newest first, the text a
    diff up to the head shows, and the baseline file at the head. *)
Record Clone : Type := {
  history : list string;
  added : string;
  baseline_at_head : option string;
}.

(** The text after the last colon of a url, as in
    [git@github.com:owner/project]. *)
Fixpoint after_colon (url : string) : option string :=
  match url with
  | EmptyString => None
  | String c url' =>
      match after_colon url' with
      | Some rest => Some rest
      | None => if Ascii.eqb c ":" then Some url' else None
      end
  end.

Definition storage_class : StorageClass :=
  {| Git := Clone;
     hash_filename := fun n => "sha512:" ++ n;
     get_tracked_file_location := fun base key =>
       base ++ "/tracked/" ++ key ++ ".json";
     repository_name_of := fun url => default url (after_colon url);
     put_error := fun base _ _ =>
       if String.eqb base "/read-only" then Some OSError else None;
     setup_directories := fun _ _ g => (Return tt, g);
     clone_and_pull_master := fun _ g => (Return tt, g);
     get_diff := fun _ sha g =>
       (if bool_decide (sha ∈ history g) then Return (added g)
        else Raise CalledProcessError, g);
     get_last_commit_hash := fun _ g =>
       (match history g with
        | head :: _ => Return head
        | [] => Raise CalledProcessError
        end, g);
     get_baseline_file := fun _ _ g => (Return (baseline_at_head g), g) |}.

Abbreviation Repo := (@BaseTrackedRepo codec).
Abbreviation Env := (@World codec storage_class).

Definition clone : Clone :=
  {| history := ["c2"; "c1"];
     added := "a b c";
     baseline_at_head := Some "b" |}.

Definition world : Env :=
  @Build_World codec storage_class ∅ clone ["maybe"; "N"] Stdout [].

Definition url : string := "git@github.com:owner/project".

Definition handle : Storage := {| root := "/tmp/server"; repo_url := url |}.

Definition tracked : Repo :=
  @Build_BaseTrackedRepo codec
    "c1" url "0 0 * * *" ["--hex-limit"; "3"] ".secrets.baseline" ""
    (Some handle).

(** A record whose checkpoint is not a commit of the clone. *)
Definition stale : Repo :=
  @Build_BaseTrackedRepo codec
    "c0" url "0 0 * * *" ["--hex-limit"; "3"] ".secrets.baseline" ""
    (Some handle).

(** The same world with a clone that has no baseline file. *)
Definition world_without_baseline : Env :=
  @Build_World codec storage_class ∅
    {| history := ["c2"; "c1"]; added := "a b c"; baseline_at_head := None |}
    [] Stdout [].

(** The tracked file of [url] under [/tmp/server], and worlds in which it
    holds an earlier record, with the given answers waiting on standard
    input. *)
Definition tracked_path : string :=
  "/tmp/server/tracked/sha512:owner/project.json".

Definition world_with_record (answers : list string) : Env :=
  @Build_World codec storage_class
    {[ tracked_path := @__dict__ codec stale ]} clone answers Stdout [].

(** The world after [tracked] was saved in [world]. *)
Definition saved_world : Env :=
  @Build_World codec storage_class
    {[ tracked_path := @__dict__ codec tracked ]} clone ["maybe"; "N"]
    Stdout [].


(** A repository given by its local path, which is also its name, and a
    storage for it; the world after it was saved in [world]. *)
Definition path : string := "/srv/git/project".





(** [tracked] with a storage rooted where nothing can be written. *)
Definition read_only : Repo :=
  @Build_BaseTrackedRepo codec
    "c1" url "0 0 * * *" ["--hex-limit"; "3"] ".secrets.baseline" ""
    (Some {| root := "/read-only"; repo_url := url |}).

(** A world whose tracked file for [url] holds the dictionary [d]. *)
Definition world_with_file (d : gmap string (@value codec)) : Env :=
  @Build_World codec storage_class {[ tracked_path := d ]} clone [] Stdout [].

Abbreviation scan' := (@scan codec engine storage_class).
Abbreviation save' := (@save codec storage_class).
Abbreviation load' := (@load_from_file codec storage_class).

End Fake.

(** * Properties *)

Section Properties.

Context {codec : PluginsConfigParser}.
Context {engine : DetectSecrets PluginArgs}.
Context {storage_class : StorageClass}.

Implicit Types (r : BaseTrackedRepo) (w : World) (st : Storage).

Lemma same_but_checkpoint_refl r : same_but_checkpoint r r.
Proof. repeat split. Qed.

Lemma same_but_checkpoint_set sha r :
  same_but_checkpoint r (set_last_commit_hash sha r).
Proof. repeat split. Qed.

(** What [update] does, by the outcome of the query for the head. *)
Lemma update_run r w st :
  storage r = Some st ->
  update (r, w) =
    match get_last_commit_hash st (git w) with
    | (Return sha, g) => (Return tt, (set_last_commit_hash sha r, set_git g w))
    | (Raise e, g) => (Raise e, (r, set_git g w))
    end.
Proof.
  intros Hst. unfold update, self_storage, self, bind, on_snd, call_git, ret.
  simpl. rewrite Hst. simpl.
  destruct (get_last_commit_hash st (git w)) as [[e|sha] g]; reflexivity.
Qed.

Lemma update_uninitialized r w :
  storage r = None -> update (r, w) = (Raise AttributeError, (r, w)).
Proof.
  intros Hst. unfold update, self_storage, self, bind, raise. simpl.
  rewrite Hst. reflexivity.
Qed.

Lemma update_frame r w : same_but_checkpoint r (fst (snd (update (r, w)))).
Proof.
  destruct (storage r) as [st|] eqn:Hst.
  - rewrite (update_run r w st Hst).
    destruct (get_last_commit_hash st (git w)) as [[e|sha] g]; simpl.
    + apply same_but_checkpoint_refl.
    + apply same_but_checkpoint_set.
  - rewrite (update_uninitialized r w Hst). apply same_but_checkpoint_refl.
Qed.

(** [scan] step by step, by the outcomes of the calls on the storage. *)
Lemma scan_run r w st :
  storage r = Some st ->
  scan (r, w) =
    match clone_and_pull_master st (git w) with
    | (Raise e, g1) => (Raise e, (r, set_git g1 w))
    | (Return _, g1) =>
        match get_diff st (last_commit_hash r) g1 with
        | (Raise CalledProcessError, g2) =>
            match get_last_commit_hash st g2 with
            | (Return sha, g3) =>
                (Return (fresh_secrets r),
                 (set_last_commit_hash sha r, set_git g3 w))
            | (Raise e, g3) => (Raise e, (r, set_git g3 w))
            end
        | (Raise e, g2) => (Raise e, (r, set_git g2 w))
        | (Return diff, g2) =>
            match get_baseline_file st (baseline_filename r) g2 with
            | (Raise e, g3) => (Raise e, (r, set_git g3 w))
            | (Return baseline, g3) =>
                (Return
                   (if truthy baseline then
                      get_secrets_not_in_baseline
                        (scanned_secrets r st diff)
                        (load_baseline_from_string (default "" baseline))
                    else scanned_secrets r st diff),
                 (r, set_git g3 w))
            end
        end
    end.
Proof.
  intros Hst.
  unfold scan, name, self_storage, self, bind, attempt, on_snd, call_git,
    ret, raise.
  simpl. rewrite Hst. simpl.
  destruct (clone_and_pull_master st (git w)) as [[e1|[]] g1]; simpl;
    [reflexivity|].
  rewrite Hst. simpl.
  destruct (get_diff st (last_commit_hash r) g1) as [[e2|diff] g2]; simpl.
  - destruct e2; try reflexivity.
    rewrite (update_run _ _ st Hst). simpl.
    destruct (get_last_commit_hash st g2) as [[e3|sha] g3]; reflexivity.
  - repeat (rewrite Hst; simpl).
    destruct (get_baseline_file st (baseline_filename r) g2)
      as [[e3|baseline] g3]; simpl; [reflexivity|].
    destruct (truthy baseline); reflexivity.
Qed.

Lemma scan_uninitialized r w :
  storage r = None -> scan (r, w) = (Raise AttributeError, (r, w)).
Proof.
  intros Hst. unfold scan, self_storage, self, bind, raise. simpl.
  rewrite Hst. reflexivity.
Qed.

(** ** The checkpoint: [scan] and [update] *)

(** C1.  When the diff from the checkpoint cannot be computed ([get_diff]
    raises [CalledProcessError] after the clone was brought up to date),
    [scan] returns: its result is the collection it started from, which
    holds no secret, and the checkpoint of the record is then the head the
    storage reports.  The failure of the diff does not reach the caller. *)
Theorem scan_unreachable_checkpoint_resyncs r w st g1 g2 head g3 :
  storage r = Some st ->
  clone_and_pull_master st (git w) = (Return tt, g1) ->
  get_diff st (last_commit_hash r) g1 = (Raise CalledProcessError, g2) ->
  get_last_commit_hash st g2 = (Return head, g3) ->
  scan (r, w) =
    (Return (fresh_secrets r), (set_last_commit_hash head r, set_git g3 w)) /\
  data (fresh_secrets r) = [] /\
  last_commit_hash (fst (snd (scan (r, w)))) = head.
Proof.
  intros Hst Hpull Hdiff Hhead.
  assert (Hrun : scan (r, w) =
    (Return (fresh_secrets r), (set_last_commit_hash head r, set_git g3 w))).
  { rewrite (scan_run r w st Hst), Hpull, Hdiff, Hhead. reflexivity. }
  split; [exact Hrun|]. split; [reflexivity|].
  rewrite Hrun. reflexivity.
Qed.

(** C4.  A call of [scan] that does not take the branch of the [except]
    clause leaves the record as it was, its checkpoint included: the
    checkpoint moves in [update] only, which [scan] calls in that branch
    alone. *)
Theorem scan_success_keeps_checkpoint r w :
  takes_except_branch r w = false ->
  fst (snd (scan (r, w))) = r /\
  last_commit_hash (fst (snd (scan (r, w)))) = last_commit_hash r.
Proof.
  intros Hbranch.
  assert (Hsame : fst (snd (scan (r, w))) = r).
  { unfold takes_except_branch in Hbranch.
    destruct (storage r) as [st|] eqn:Hst.
    - rewrite (scan_run r w st Hst).
      destruct (clone_and_pull_master st (git w)) as [[e1|u] g1];
        [reflexivity|].
      destruct (get_diff st (last_commit_hash r) g1) as [[e2|diff] g2].
      + simpl in Hbranch. destruct e2; try discriminate; reflexivity.
      + destruct (get_baseline_file st (baseline_filename r) g2)
          as [[e3|baseline] g3]; reflexivity.
    - rewrite (scan_uninitialized r w Hst). reflexivity. }
  split; [exact Hsame|]. rewrite Hsame. reflexivity.
Qed.

(** C5.  On the path where the diff was computed and the baseline file was
    read: when the file has content, [scan] returns what
    [get_secrets_not_in_baseline] makes of the scanned secrets and the
    collection decoded from the file; when there is no file, or an empty
    one, it returns the scanned secrets as they are. *)
Theorem scan_baseline_filtering r w st g1 diff g2 baseline g3 :
  storage r = Some st ->
  clone_and_pull_master st (git w) = (Return tt, g1) ->
  get_diff st (last_commit_hash r) g1 = (Return diff, g2) ->
  get_baseline_file st (baseline_filename r) g2 = (Return baseline, g3) ->
  (forall content, baseline = Some content -> content <> "" ->
     fst (scan (r, w)) =
       Return (get_secrets_not_in_baseline
                 (scanned_secrets r st diff)
                 (load_baseline_from_string content))) /\
  (baseline = None \/ baseline = Some "" ->
     fst (scan (r, w)) = Return (scanned_secrets r st diff)).
Proof.
  intros Hst Hpull Hdiff Hbase.
  rewrite (scan_run r w st Hst), Hpull, Hdiff, Hbase. simpl.
  split.
  - intros content -> Hne. simpl.
    destruct (String.eqb_spec content ""); [contradiction|reflexivity].
  - intros [-> | ->]; reflexivity.
Qed.

(** C10.  [update] writes the checkpoint and nothing else: after it,
    called on its own or by [scan], and whether or not an exception is
    raised, the repository, the plugin configuration, the crontab, the
    baseline filename, the exclude pattern and the storage of the record
    are what they were. *)
Theorem update_overwrites_only_checkpoint r w :
  same_but_checkpoint r (fst (snd (update (r, w)))) /\
  same_but_checkpoint r (fst (snd (scan (r, w)))).
Proof.
  split; [apply update_frame|].
  destruct (storage r) as [st|] eqn:Hst.
  - rewrite (scan_run r w st Hst).
    destruct (clone_and_pull_master st (git w)) as [[e1|u] g1];
      [apply same_but_checkpoint_refl|].
    destruct (get_diff st (last_commit_hash r) g1) as [[e2|diff] g2].
    + destruct e2; try apply same_but_checkpoint_refl.
      destruct (get_last_commit_hash st g2) as [[e3|sha] g3].
      * apply same_but_checkpoint_refl.
      * apply same_but_checkpoint_set.
    + destruct (get_baseline_file st (baseline_filename r) g2)
        as [[e3|baseline] g3]; apply same_but_checkpoint_refl.
  - rewrite (scan_uninitialized r w Hst). apply same_but_checkpoint_refl.
Qed.

(** ** The tracked file: [save] and [load_from_file] *)

(** Asking on the console touches neither the tracked files nor the
    clones. *)
Lemma input_frame prompt w :
  files (snd (input prompt w)) = files w /\
  git (snd (input prompt w)) = git w /\
  sys_stdout (snd (input prompt w)) = sys_stdout w.
Proof. unfold input. destruct (stdin w); repeat split. Qed.

Lemma ask_override_frame prompt pending : forall w,
  files (snd (ask_override prompt pending w)) = files w /\
  git (snd (ask_override prompt pending w)) = git w /\
  sys_stdout (snd (ask_override prompt pending w)) = sys_stdout w.
Proof.
  induction pending as [|line pending IH]; intros w; simpl.
  - apply input_frame.
  - unfold bind.
    destruct (input_frame prompt w) as (Hf & Hg & Ho).
    destruct (input prompt w) as [[e|answer] w1]; simpl in *.
    + repeat split; assumption.
    + destruct (bool_decide (lower answer ∈ ["y"; "n"])).
      * unfold ret. simpl. repeat split; assumption.
      * destruct (IH w1) as (Hf' & Hg' & Ho').
        rewrite Hf', Hg', Ho'. repeat split; assumption.
Qed.

Lemma prompt_frame r w st :
  storage r = Some st ->
  fst (snd (_prompt_user_override (r, w))) = r /\
  files (snd (snd (_prompt_user_override (r, w)))) = files w /\
  git (snd (snd (_prompt_user_override (r, w)))) = git w.
Proof.
  intros Hst.
  unfold _prompt_user_override, name, self_storage, self, bind, on_snd, ret.
  simpl. rewrite Hst. simpl.
  pose proof (ask_override_frame (override_prompt (repository_name st))
                (stdin w) (set_sys_stdout Stderr w)) as (Hf & Hg & _).
  destruct (ask_override (override_prompt (repository_name st)) (stdin w)
              (set_sys_stdout Stderr w)) as [[e|answer] w1]; simpl in *.
  - repeat split; assumption.
  - destruct (String.eqb answer "n"); simpl; repeat split; assumption.
Qed.

(** Running a sequence: the first step returned, or raised. *)
Lemma bind_run {S A B} (m : M S A) (k : A -> M S B) s a s' :
  m s = (Return a, s') -> bind m k s = k a s'.
Proof. intros H. unfold bind. rewrite H. reflexivity. Qed.

Lemma bind_raise {S A B} (m : M S A) (k : A -> M S B) s e s' :
  m s = (Raise e, s') -> bind m k s = (Raise e, s').
Proof. intros H. unfold bind. rewrite H. reflexivity. Qed.

Lemma self_storage_run r w st :
  storage r = Some st -> self_storage (r, w) = (Return st, (r, w)).
Proof.
  intros Hst. unfold self_storage, self, bind, ret. simpl. rewrite Hst.
  reflexivity.
Qed.

Lemma name_run r w st :
  storage r = Some st -> name (r, w) = (Return (repository_name st), (r, w)).
Proof.
  intros Hst. unfold name.
  rewrite (bind_run _ _ _ _ _ (self_storage_run r w st Hst)). reflexivity.
Qed.

Ltac step Hst :=
  erewrite bind_run
    by first [ apply name_run; exact Hst
             | apply self_storage_run; exact Hst
             | reflexivity ];
  cbn [fst snd].

Lemma put_run r w st :
  (on_snd (storage_put (root st) (hash_filename (repository_name st))
             (__dict__ r)) ;;; ret true) (r, w)
  = after_put r st w.
Proof.
  unfold bind, on_snd, storage_put, after_put, put_fails, written, ret.
  cbn [fst snd]. destruct (put_error _ _ (git w)); reflexivity.
Qed.

(** [save] step by step. *)
Lemma save_run r w st lvl :
  storage r = Some st ->
  save lvl (r, w) =
    if bool_decide (is_Some (files w !! tracked_file st)) then
      match lvl with
      | NEVER => (Return false, (r, w))
      | ALWAYS => after_put r st w
      | ASK_USER =>
          match _prompt_user_override (r, w) with
          | (Raise e, s) => (Raise e, s)
          | (Return false, s) => (Return false, s)
          | (Return true, s) => after_put r st (snd s)
          end
      end
    else after_put r st w.
Proof.
  intros Hst. unfold save. do 3 step Hst.
  fold (tracked_file st).
  destruct (bool_decide (is_Some (files w !! tracked_file st))).
  - destruct lvl.
    + repeat step Hst. reflexivity.
    + destruct (prompt_frame r w st Hst) as (Hr & _).
      destruct (_prompt_user_override (r, w)) as [[e|[]] [r' w']] eqn:Hask;
        simpl in Hr; subst r'.
      * erewrite bind_raise by exact Hask. reflexivity.
      * erewrite bind_run by exact Hask. cbv beta iota.
        do 2 step Hst. apply put_run.
      * erewrite bind_run by exact Hask. reflexivity.
    + do 3 step Hst. apply put_run.
  - do 3 step Hst. apply put_run.
Qed.

Lemma save_uninitialized r w lvl :
  storage r = None -> save lvl (r, w) = (Raise AttributeError, (r, w)).
Proof.
  intros Hst. unfold save, name, self_storage, self, bind, raise. simpl.
  rewrite Hst. reflexivity.
Qed.

Lemma name_uninitialized r w :
  storage r = None -> name (r, w) = (Raise AttributeError, (r, w)).
Proof.
  intros Hst. unfold name, self_storage, self, bind, raise. simpl.
  rewrite Hst. reflexivity.
Qed.

(** A [save] that returned [True] has put the record in its tracked file,
    without an error of the [put], and has left the record and the clones
    alone. *)
Lemma save_true_inv r w st lvl s :
  storage r = Some st ->
  save lvl (r, w) = (Return true, s) ->
  fst s = r /\
  files (snd s) = <[tracked_file st := __dict__ r]> (files w) /\
  git (snd s) = git w /\
  put_fails st w = None.
Proof.
  intros Hst. rewrite (save_run r w st lvl Hst).
  assert (Hput : forall w0, git w0 = git w -> files w0 = files w ->
            after_put r st w0 = (Return true, s) ->
            fst s = r /\
            files (snd s) = <[tracked_file st := __dict__ r]> (files w) /\
            git (snd s) = git w /\
            put_fails st w = None).
  { intros w0 Hg Hf. unfold after_put, put_fails. rewrite Hg.
    destruct (put_error _ _ (git w)); [intros H; discriminate H|].
    intros [= <-]. unfold written. cbn [fst snd files git set_files].
    rewrite Hf, Hg. repeat split. }
  destruct (bool_decide (is_Some (files w !! tracked_file st))).
  - destruct lvl.
    + intros H. discriminate H.
    + destruct (prompt_frame r w st Hst) as (_ & Hf & Hg).
      destruct (_prompt_user_override (r, w)) as [[e|[]] [r' w']];
        try (intros H; discriminate H).
      cbn [fst snd] in *. apply Hput; assumption.
    + apply Hput; reflexivity.
  - apply Hput; reflexivity.
Qed.

Lemma dict_plugins r :
  __dict__ r !! "plugins" = Some (VConfig (to_config (plugin_config r))).
Proof. reflexivity. Qed.

(** [load_from_file] on a slot that holds the dictionary of [r]. *)
Lemma load_from_file_saved r n base w args g :
  files w !! get_tracked_file_location base (hash_filename n)
    = Some (__dict__ r) ->
  to_args (to_config (plugin_config r)) = Return args ->
  setup_directories base (repo r) (git w) = (Return tt, g) ->
  load_from_file n base w = (Return (reloaded r args base), set_git g w).
Proof.
  intros Hslot Hcodec Hsetup.
  unfold load_from_file, initialize_storage.
  erewrite bind_run; [|unfold storage_get; rewrite Hslot; reflexivity].
  erewrite bind_run;
    [|unfold of_result, modify_tracked_file_contents;
      rewrite dict_plugins, Hcodec; reflexivity].
  erewrite bind_run; [|reflexivity].
  cbn [repo].
  unfold setup, call_git, bind, ret. rewrite Hsetup. reflexivity.
Qed.

Lemma load_from_file_missing n base w :
  files w !! get_tracked_file_location base (hash_filename n) = None ->
  load_from_file n base w = (Raise FileNotFoundError, w).
Proof.
  intros Hslot. unfold load_from_file, initialize_storage.
  erewrite bind_raise; [reflexivity|].
  unfold storage_get. rewrite Hslot. reflexivity.
Qed.


(** C2.  The override matrix of [save], for a record with a storage.  With
    no tracked file at the path, [save] writes the dictionary of the record
    there and returns [True] whatever the level.  With a tracked file:
    [NEVER] returns [False] and changes nothing; [ALWAYS] writes and
    returns [True]; [ASK_USER] returns [False] and leaves the files alone
    when the prompt answers no, and writes and returns [True] when it
    answers yes.  A row that writes holds when the [put] meets no error;
    when it meets one, [save] raises it and no tracked file changes. *)
Theorem save_override_matrix r w st :
  storage r = Some st ->
  (files w !! tracked_file st = None ->
     forall lvl,
       (put_fails st w = None ->
        save lvl (r, w) = (Return true, (r, written r st w))) /\
       (forall e, put_fails st w = Some e ->
        save lvl (r, w) = (Raise e, (r, w)))) /\
  (is_Some (files w !! tracked_file st) ->
     save NEVER (r, w) = (Return false, (r, w)) /\
     (put_fails st w = None ->
      save ALWAYS (r, w) = (Return true, (r, written r st w))) /\
     (forall e, put_fails st w = Some e ->
      save ALWAYS (r, w) = (Raise e, (r, w))) /\
     (forall w', _prompt_user_override (r, w) = (Return false, (r, w')) ->
        save ASK_USER (r, w) = (Return false, (r, w')) /\
        files w' = files w) /\
     (forall w', _prompt_user_override (r, w) = (Return true, (r, w')) ->
        (put_fails st w = None ->
         save ASK_USER (r, w) = (Return true, (r, written r st w')) /\
         files (written r st w')
           = <[tracked_file st := __dict__ r]> (files w)) /\
        (forall e, put_fails st w = Some e ->
         save ASK_USER (r, w) = (Raise e, (r, w')) /\
         files w' = files w))).
Proof.
  intros Hst. split.
  - intros Hnone lvl. rewrite (save_run r w st lvl Hst).
    rewrite bool_decide_eq_false_2
      by (rewrite Hnone; intros [d Hd]; discriminate Hd).
    unfold after_put. split.
    + intros ->. reflexivity.
    + intros e ->. reflexivity.
  - intros Hsome.
    pose proof (prompt_frame r w st Hst) as (_ & Hfiles & Hgit).
    rewrite (save_run r w st NEVER Hst), (save_run r w st ALWAYS Hst),
      (save_run r w st ASK_USER Hst).
    rewrite bool_decide_eq_true_2 by exact Hsome.
    split; [reflexivity|]. unfold after_put.
    split; [intros ->; reflexivity|].
    split; [intros e ->; reflexivity|].
    split.
    + intros w' Hask. rewrite Hask in Hfiles |- *.
      split; [reflexivity|exact Hfiles].
    + intros w' Hask. rewrite Hask in Hfiles, Hgit |- *.
      cbn [fst snd] in *.
      assert (Hsame : put_fails st w' = put_fails st w)
        by (unfold put_fails; rewrite Hgit; reflexivity).
      rewrite Hsame. split.
      * intros ->. split; [reflexivity|].
        unfold written. cbn [files set_files]. rewrite Hfiles. reflexivity.
      * intros e ->. split; [reflexivity|exact Hfiles].
Qed.

(** C6.  The dictionary written to the tracked file has the six keys
    [sha], [repo], [plugins], [cron], [baseline_filename] and
    [exclude_regex] and no other; they hold the checkpoint, the
    repository, the configuration in its compact form, the crontab, the
    baseline filename and the exclude pattern.  The storage is not in it
    and does not bear on it. *)
Theorem dict_has_exactly_six_fields r :
  dom (__dict__ r) =
    ({[ "sha"; "repo"; "plugins"; "cron"; "baseline_filename";
        "exclude_regex" ]} : gset string) /\
  __dict__ r !! "sha" = Some (VStr (last_commit_hash r)) /\
  __dict__ r !! "repo" = Some (VStr (repo r)) /\
  __dict__ r !! "plugins" = Some (VConfig (to_config (plugin_config r))) /\
  __dict__ r !! "cron" = Some (VStr (crontab r)) /\
  __dict__ r !! "baseline_filename" = Some (VStr (baseline_filename r)) /\
  __dict__ r !! "exclude_regex" = Some (VStr (exclude_regex r)) /\
  __dict__ r !! "storage" = None /\
  (forall st, __dict__ (set_storage st r) = __dict__ r).
Proof.
  split.
  - unfold __dict__. rewrite !dom_insert_L, dom_empty_L. set_solver.
  - repeat split.
Qed.

(** C8.  A record built without a directory ([base_temp_dir] missing or
    empty) has no storage, and building it touches nothing.  [scan],
    [update], [save] and [name] then raise [AttributeError] at once, in
    any world, leaving the record and the world as they were. *)
Theorem uninitialized_storage_fails_fast
    url sha args baseline pattern schedule base w :
  truthy base = false ->
  exists r,
    __init__ url sha args baseline pattern schedule base w = (Return r, w) /\
    storage r = None /\
    forall w',
      scan (r, w') = (Raise AttributeError, (r, w')) /\
      update (r, w') = (Raise AttributeError, (r, w')) /\
      name (r, w') = (Raise AttributeError, (r, w')) /\
      forall lvl, save lvl (r, w') = (Raise AttributeError, (r, w')).
Proof.
  intros Hbase. unfold __init__. rewrite Hbase.
  eexists. split; [reflexivity|]. split; [reflexivity|].
  intros w'. split; [|split; [|split]].
  - apply scan_uninitialized. reflexivity.
  - apply update_uninitialized. reflexivity.
  - apply name_uninitialized. reflexivity.
  - intros lvl. apply save_uninitialized. reflexivity.
Qed.

(** C9.  When no tracked file exists for the name, [load_from_file] raises
    [FileNotFoundError]: it returns no record, and the world, the clones
    in it included, is as it was, so that no storage was set up. *)
Theorem load_missing_record_fails n base w :
  files w !! get_tracked_file_location base (hash_filename n) = None ->
  load_from_file n base w = (Raise FileNotFoundError, w) /\
  is_Return (fst (load_from_file n base w)) = false /\
  git (snd (load_from_file n base w)) = git w.
Proof.
  intros Hslot. rewrite (load_from_file_missing n base w Hslot).
  repeat split.
Qed.


(** A record built with a directory, saved, and loaded from that
    directory by its name comes back with the same checkpoint, repository,
    crontab, baseline filename and exclude pattern, and with the
    configuration that the codec decodes from the compact form of the
    original one; when that is the original configuration the loaded
    record is the original record. *)
Theorem save_then_load_by_name_round_trip
    url sha args baseline pattern schedule base lvl w r w1 s args' g :
  __init__ url sha args baseline pattern schedule (Some base) w
    = (Return r, w1) ->
  save lvl (r, w1) = (Return true, s) ->
  to_args (to_config args) = Return args' ->
  setup_directories base url (git (snd s)) = (Return tt, g) ->
  exists r',
    load_from_file (repository_name_of url) base (snd s)
      = (Return r', set_git g (snd s)) /\
    last_commit_hash r' = sha /\
    repo r' = url /\
    plugin_config r' = args' /\
    crontab r' = schedule /\
    baseline_filename r' = baseline /\
    exclude_regex r' = pattern /\
    (args' = args -> r' = r).
Proof.
  intros Hinit Hsave Hcodec Hsetup.
  unfold __init__ in Hinit.
  destruct (truthy (Some base)).
  - unfold setup, initialize_storage, call_git, bind, ret in Hinit.
    simpl in Hinit.
    destruct (setup_directories base url (git w)) as [[e|u] g0];
      [discriminate|].
    injection Hinit as <- <-.
    match type of Hsave with
    | save _ (?rec, _) = _ => set (r := rec) in *
    end.
    assert (Hst : storage r = Some {| root := base; repo_url := url |})
      by reflexivity.
    destruct (save_true_inv r _ _ lvl s Hst Hsave) as (_ & Hfiles & _).
    exists (reloaded r args' base). split; [|repeat split].
    + apply load_from_file_saved.
      * rewrite Hfiles. apply lookup_insert_eq.
      * exact Hcodec.
      * exact Hsetup.
    + intros ->. reflexivity.
  - unfold ret in Hinit. injection Hinit as <- <-.
    rewrite save_uninitialized in Hsave by reflexivity. discriminate.
Qed.


End Properties.

(** * Further properties of the operations *)

Section Further.

Context {codec : PluginsConfigParser}.
Context {engine : DetectSecrets PluginArgs}.
Context {storage_class : StorageClass}.

Implicit Types (r : BaseTrackedRepo) (w : World) (st : Storage).

Ltac run Hst :=
  erewrite bind_run
    by first [ apply name_run; exact Hst
             | apply self_storage_run; exact Hst
             | reflexivity ];
  cbn [fst snd].

(** ** [update] and [scan] *)

(** [update] twice.  When the head the storage reports is the same on the
    second query, and the query leaves the clones as they are, the second
    [update] changes neither the record nor the world. *)
Theorem update_twice_is_update r w st head g :
  storage r = Some st ->
  get_last_commit_hash st (git w) = (Return head, g) ->
  get_last_commit_hash st g = (Return head, g) ->
  update (snd (update (r, w))) = (Return tt, snd (update (r, w))) /\
  last_commit_hash (fst (snd (update (r, w)))) = head.
Proof.
  intros Hst Hfirst Hsecond.
  rewrite (update_run r w st Hst), Hfirst. cbn [fst snd].
  rewrite (update_run (set_last_commit_hash head r) (set_git g w) st Hst).
  cbn [git set_git]. rewrite Hsecond. split; reflexivity.
Qed.


(** ** The prompt *)

Lemma lower_ascii_y c : lower_ascii c = "y"%char -> c = "y"%char \/ c = "Y"%char.
Proof.
  destruct c as [[] [] [] [] [] [] [] []]; vm_compute; intros H;
    first [discriminate H | left; reflexivity | right; reflexivity].
Qed.

Lemma lower_ascii_n c : lower_ascii c = "n"%char -> c = "n"%char \/ c = "N"%char.
Proof.
  destruct c as [[] [] [] [] [] [] [] []]; vm_compute; intros H;
    first [discriminate H | left; reflexivity | right; reflexivity].
Qed.

Lemma lower_one_char line c :
  lower line = String c "" -> exists c', line = String c' "" /\ lower_ascii c' = c.
Proof.
  destruct line as [|c' [|c'' rest]]; simpl; intros H; try discriminate H.
  injection H as H. exists c'. split; [reflexivity|exact H].
Qed.

(** The answers the prompt takes are [y] and [n] in either case, and
    nothing else, the empty line included; the answer is a refusal exactly
    when it is [n] or [N]. *)
Theorem accepted_answers line :
  (accepted line = true <->
     line = "y" \/ line = "Y" \/ line = "n" \/ line = "N") /\
  (lower line = "n" <-> line = "n" \/ line = "N").
Proof.
  assert (Hn : lower line = "n" -> line = "n" \/ line = "N").
  { intros H. destruct (lower_one_char line _ H) as (c & -> & Hc).
    destruct (lower_ascii_n c Hc) as [-> | ->]; [left|right]; reflexivity. }
  assert (Hy : lower line = "y" -> line = "y" \/ line = "Y").
  { intros H. destruct (lower_one_char line _ H) as (c & -> & Hc).
    destruct (lower_ascii_y c Hc) as [-> | ->]; [left|right]; reflexivity. }
  split; split.
  - unfold accepted. intros H. apply bool_decide_eq_true_1 in H.
    rewrite !elem_of_cons, elem_of_nil in H.
    destruct H as [H | [H | []]].
    + destruct (Hy H); [left|right; left]; assumption.
    + destruct (Hn H); [right; right; left|right; right; right]; assumption.
  - intros [-> | [-> | [-> | ->]]]; reflexivity.
  - exact Hn.
  - intros [-> | ->]; reflexivity.
Qed.

Lemma console_more (shown : list (stream * string)) x n :
  ((shown ++ [x]) ++ replicate n x)%list = (shown ++ replicate (S n) x)%list.
Proof. rewrite <- app_assoc. reflexivity. Qed.

Lemma ask_override_answer p skipped : forall w answer rest,
  stdin w = (skipped ++ answer :: rest)%list ->
  Forall (fun l => accepted l = false) skipped ->
  accepted answer = true ->
  sys_stdout w = Stderr ->
  ask_override p (skipped ++ answer :: rest) w =
    (Return (lower answer), prompted w p (S (List.length skipped)) rest Stderr).
Proof.
  induction skipped as [|line skipped IH];
    intros w answer rest Hin Hskip Hans Hout.
  - simpl in *. unfold bind, input. rewrite Hin, Hout. cbv beta iota.
    unfold accepted in Hans. rewrite Hans. reflexivity.
  - simpl in Hin. cbn [ask_override app].
    unfold bind, input. rewrite Hin, Hout. cbv beta iota.
    inversion Hskip as [|? ? Hline Hskip']; subst.
    unfold accepted in Hline. rewrite Hline.
    match goal with
    | |- ask_override _ _ ?w1 = _ =>
        rewrite (IH w1 answer rest eq_refl Hskip' Hans eq_refl)
    end.
    unfold prompted. cbn [files git stdin sys_stdout console].
    rewrite console_more. reflexivity.
Qed.

Lemma ask_override_eof p pending : forall w,
  stdin w = pending ->
  Forall (fun l => accepted l = false) pending ->
  sys_stdout w = Stderr ->
  ask_override p pending w =
    (Raise EOFError, prompted w p (S (List.length pending)) [] Stderr).
Proof.
  induction pending as [|line pending IH]; intros w Hin Hall Hout.
  - cbn [ask_override]. unfold input. rewrite Hin, Hout. reflexivity.
  - cbn [ask_override]. unfold bind, input. rewrite Hin, Hout.
    cbv beta iota.
    inversion Hall as [|? ? Hline Hall']; subst.
    unfold accepted in Hline. rewrite Hline.
    match goal with
    | |- ask_override _ _ ?w1 = _ =>
        rewrite (IH w1 eq_refl Hall' eq_refl)
    end.
    unfold prompted. cbn [files git stdin sys_stdout console].
    rewrite console_more. reflexivity.
Qed.

(** [_prompt_user_override] reads standard input up to the first answer it
    takes.  It returns [False] when that answer is [n] or [N] and [True]
    otherwise; the lines before the answer are used up, the lines after it
    are left; the prompt was shown on standard error once per line read;
    [sys.stdout] is back at the standard output. *)
Theorem prompt_reads_up_to_the_answer r w st skipped answer rest :
  storage r = Some st ->
  stdin w = (skipped ++ answer :: rest)%list ->
  Forall (fun l => accepted l = false) skipped ->
  accepted answer = true ->
  _prompt_user_override (r, w) =
    (Return (negb (String.eqb (lower answer) "n")),
     (r, prompted w (override_prompt (repository_name st))
           (S (List.length skipped)) rest Stdout)).
Proof.
  intros Hst Hin Hskip Hans.
  unfold _prompt_user_override. do 2 run Hst.
  pose proof (ask_override_answer (override_prompt (repository_name st))
                skipped (set_sys_stdout Stderr w) answer rest
                Hin Hskip Hans eq_refl) as Hask.
  erewrite bind_run;
    [|unfold on_snd; cbn [fst snd stdin set_sys_stdout]; rewrite Hin, Hask;
      reflexivity].
  run Hst. destruct (String.eqb (lower answer) "n"); reflexivity.
Qed.

(** Standard input ends before an answer.  [_prompt_user_override] raises
    [EOFError] and leaves [sys.stdout] at the standard error; [save] with
    [ASK_USER] on a tracked record raises it too, writes nothing, and
    leaves the record as it was. *)
Theorem prompt_without_answer_raises r w st :
  storage r = Some st ->
  Forall (fun l => accepted l = false) (stdin w) ->
  _prompt_user_override (r, w) =
    (Raise EOFError,
     (r, prompted w (override_prompt (repository_name st))
           (S (List.length (stdin w))) [] Stderr)) /\
  (is_Some (files w !! tracked_file st) ->
   save ASK_USER (r, w) =
     (Raise EOFError,
      (r, prompted w (override_prompt (repository_name st))
            (S (List.length (stdin w))) [] Stderr))).
Proof.
  intros Hst Hall.
  assert (Hprompt : _prompt_user_override (r, w) =
    (Raise EOFError,
     (r, prompted w (override_prompt (repository_name st))
           (S (List.length (stdin w))) [] Stderr))).
  { unfold _prompt_user_override. do 2 run Hst.
    pose proof (ask_override_eof (override_prompt (repository_name st))
                  (stdin w) (set_sys_stdout Stderr w) eq_refl Hall eq_refl)
      as Hask.
    erewrite bind_raise; [reflexivity|].
    unfold on_snd. cbn [fst snd stdin set_sys_stdout]. rewrite Hask.
    reflexivity. }
  split; [exact Hprompt|].
  intros Hsome. rewrite (save_run r w st ASK_USER Hst).
  rewrite bool_decide_eq_true_2 by exact Hsome. rewrite Hprompt. reflexivity.
Qed.

(** ** [save] and [cron] *)

Lemma after_put_frame r st w :
  fst (snd (after_put r st w)) = r /\
  git (snd (snd (after_put r st w))) = git w /\
  (forall path, path <> tracked_file st ->
     files (snd (snd (after_put r st w))) !! path = files w !! path) /\
  stdin (snd (snd (after_put r st w))) = stdin w /\
  sys_stdout (snd (snd (after_put r st w))) = sys_stdout w /\
  console (snd (snd (after_put r st w))) = console w.
Proof.
  unfold after_put. destruct (put_fails st w).
  - repeat split.
  - split; [reflexivity|]. split; [reflexivity|]. split; [|repeat split].
    intros path Hne. unfold written. cbn [fst snd files set_files].
    apply lookup_insert_ne. congruence.
Qed.

(** [save] writes one file at most.  Whatever the level and the outcome,
    the record and the clones are as before and so is every tracked file
    but the one of the record; unless the level is [ASK_USER], standard
    input, [sys.stdout] and the console are untouched as well. *)
Theorem save_touches_its_tracked_file_only r w st lvl :
  storage r = Some st ->
  fst (snd (save lvl (r, w))) = r /\
  git (snd (snd (save lvl (r, w)))) = git w /\
  (forall path, path <> tracked_file st ->
     files (snd (snd (save lvl (r, w)))) !! path = files w !! path) /\
  (lvl <> ASK_USER ->
     stdin (snd (snd (save lvl (r, w)))) = stdin w /\
     sys_stdout (snd (snd (save lvl (r, w)))) = sys_stdout w /\
     console (snd (snd (save lvl (r, w)))) = console w).
Proof.
  intros Hst. rewrite (save_run r w st lvl Hst).
  pose proof (after_put_frame r st w) as (Pr & Pg & Pf & Pi & Po & Pc).
  destruct (bool_decide (is_Some (files w !! tracked_file st))).
  - destruct lvl.
    + split; [reflexivity|]. split; [reflexivity|]. split; repeat split.
    + destruct (prompt_frame r w st Hst) as (Hr & Hf & Hg).
      destruct (_prompt_user_override (r, w)) as [[e|[]] [r' w']];
        cbn [fst snd] in *; subst r'.
      * split; [reflexivity|]. split; [exact Hg|]. split; [|congruence].
        intros path _. rewrite Hf. reflexivity.
      * pose proof (after_put_frame r st w') as (Qr & Qg & Qf & _).
        split; [exact Qr|]. split; [rewrite Qg; exact Hg|].
        split; [|congruence].
        intros path Hne. rewrite (Qf path Hne), Hf. reflexivity.
      * split; [reflexivity|]. split; [exact Hg|]. split; [|congruence].
        intros path _. rewrite Hf. reflexivity.
    + split; [exact Pr|]. split; [exact Pg|]. split; [exact Pf|].
      intros _. split; [exact Pi|]. split; [exact Po|exact Pc].
  - split; [exact Pr|]. split; [exact Pg|]. split; [exact Pf|].
    intros _. split; [exact Pi|]. split; [exact Po|exact Pc].
Qed.

(** After a [save] that returned [True] the record is tracked: [save] with
    [NEVER] then returns [False] and changes nothing, and [save] with
    [ALWAYS] does not return [False] and, whether it returns or its [put]
    raises, leaves every tracked file as the first [save] left it. *)
Theorem saved_record_is_tracked r w st lvl s :
  storage r = Some st ->
  save lvl (r, w) = (Return true, s) ->
  save NEVER s = (Return false, s) /\
  fst (save ALWAYS s) <> Return false /\
  files (snd (snd (save ALWAYS s))) = files (snd s).
Proof.
  intros Hst Hsave.
  destruct (save_true_inv r w st lvl s Hst Hsave) as (Hr & Hfiles & _).
  destruct s as [r' w']. cbn [fst snd] in *. subst r'.
  assert (Hsome : is_Some (files w' !! tracked_file st)).
  { rewrite Hfiles, lookup_insert_eq. eexists. reflexivity. }
  rewrite (save_run r w' st NEVER Hst), (save_run r w' st ALWAYS Hst).
  rewrite bool_decide_eq_true_2 by exact Hsome.
  split; [reflexivity|]. unfold after_put.
  destruct (put_fails st w').
  - split; [intros H; discriminate H|reflexivity].
  - split; [intros H; discriminate H|].
    unfold written. cbn [fst snd files set_files].
    rewrite Hfiles. apply insert_insert_eq.
Qed.

(** [update] and then [save] with [ALWAYS], when the [put] meets no error:
    [save] returns [True] and the tracked file of the record holds the
    head the storage reported as its [sha], beside the repository of the
    record. *)
Theorem update_then_save_persists_head r w st head g :
  storage r = Some st ->
  get_last_commit_hash st (git w) = (Return head, g) ->
  put_error (root st) (hash_filename (repository_name st)) g = None ->
  fst (save ALWAYS (snd (update (r, w)))) = Return true /\
  exists d,
    files (snd (snd (save ALWAYS (snd (update (r, w)))))) !! tracked_file st
      = Some d /\
    d !! "sha" = Some (VStr head) /\
    d !! "repo" = Some (VStr (repo r)).
Proof.
  intros Hst Hhead Hput.
  rewrite (update_run r w st Hst), Hhead. cbn [fst snd].
  rewrite (save_run (set_last_commit_hash head r) (set_git g w) st ALWAYS Hst).
  assert (Hafter : after_put (set_last_commit_hash head r) st (set_git g w)
            = (Return true,
               (set_last_commit_hash head r,
                written (set_last_commit_hash head r) st (set_git g w)))).
  { unfold after_put, put_fails. cbn [git set_git]. rewrite Hput.
    reflexivity. }
  rewrite Hafter.
  destruct (bool_decide _); cbn [fst snd];
    (split; [reflexivity|]; eexists;
     split; [unfold written; cbn [files set_files]; apply lookup_insert_eq|];
     split; reflexivity).
Qed.

(** [cron].  Without a storage it raises [AttributeError].  With one it
    returns the crontab of the record followed by the command that scans
    the repository by its name, and changes nothing; after a [save] that
    returned [True], [load_from_file] given that name finds the record. *)
Theorem cron_names_the_saved_record r w :
  (storage r = None -> cron (r, w) = (Raise AttributeError, (r, w))) /\
  (forall st, storage r = Some st ->
     cron (r, w) =
       (Return (crontab r ++ "    detect-secrets-server --scan-repo "
                  ++ repository_name st), (r, w)) /\
     forall lvl s args g,
       save lvl (r, w) = (Return true, s) ->
       to_args (to_config (plugin_config r)) = Return args ->
       setup_directories (root st) (repo r) (git (snd s)) = (Return tt, g) ->
       load_from_file (repository_name st) (root st) (snd s) =
         (Return (reloaded r args (root st)), set_git g (snd s))).
Proof.
  split.
  - intros Hst. unfold cron, name, self_storage, self, bind, raise.
    cbn [fst snd]. rewrite Hst. reflexivity.
  - intros st Hst. split.
    + unfold cron. unfold self at 1. unfold bind at 1. cbn [fst snd].
      run Hst. reflexivity.
    + intros lvl s args g Hsave Hcodec Hsetup.
      destruct (save_true_inv r w st lvl s Hst Hsave) as (_ & Hfiles & _).
      apply load_from_file_saved.
      * rewrite Hfiles. apply lookup_insert_eq.
      * exact Hcodec.
      * exact Hsetup.
Qed.

(** ** Construction and [load_from_file] *)

Lemma init_run url sha args baseline pattern schedule base w :
  __init__ url sha args baseline pattern schedule base w =
    if truthy base then
      match setup_directories (default "" base) url (git w) with
      | (Return _, g) =>
          (Return (set_storage {| root := default "" base; repo_url := url |}
                     (bare url sha args baseline pattern schedule)),
           set_git g w)
      | (Raise e, g) => (Raise e, set_git g w)
      end
    else (Return (bare url sha args baseline pattern schedule), w).
Proof.
  unfold __init__, setup, initialize_storage, call_git, bind, ret, bare.
  destruct (truthy base); [|reflexivity].
  destruct (setup_directories (default "" base) url (git w)) as [[e|u] g];
    reflexivity.
Qed.

(** [__init__].  What it returns has the arguments for attributes, and a
    storage, rooted at [base_temp_dir] and tracking the repository, exactly
    when [base_temp_dir] is given and not empty; no tracked file changes.
    It raises only what setting up the storage raises. *)
Theorem init_builds_the_record url sha args baseline pattern schedule base w :
  (forall r w',
     __init__ url sha args baseline pattern schedule base w = (Return r, w') ->
     last_commit_hash r = sha /\ repo r = url /\ crontab r = schedule /\
     plugin_config r = args /\ baseline_filename r = baseline /\
     exclude_regex r = pattern /\
     storage r = (if truthy base
                  then Some {| root := default "" base; repo_url := url |}
                  else None) /\
     tracks_own_repo r /\
     files w' = files w) /\
  (forall e w',
     __init__ url sha args baseline pattern schedule base w = (Raise e, w') ->
     truthy base = true /\
     fst (setup_directories (default "" base) url (git w)) = Raise e).
Proof.
  rewrite init_run. destruct (truthy base).
  - destruct (setup_directories (default "" base) url (git w)) as [[e|u] g].
    + split; [intros r w' H; discriminate H|].
      intros e' w' [= <- <-]. split; reflexivity.
    + split; [|intros e' w' H; discriminate H].
      intros r w' [= <- <-]. repeat split.
      intros st [= <-]. reflexivity.
  - split; [|intros e' w' H; discriminate H].
    intros r w' [= <- <-]. repeat split. intros st H. discriminate H.
Qed.

(** [modify_tracked_file_contents] touches the entry [plugins] only: when
    it returns, that entry held a compact configuration and now holds the
    arguments decoded from it, and the keys and all other entries are the
    same.  Without that entry it raises [KeyError]; what the decoder
    raises, it raises. *)
Theorem modify_replaces_plugins_only (d : gmap string value) :
  (forall d', modify_tracked_file_contents d = Return d' ->
     exists c a,
       d !! "plugins" = Some (VConfig c) /\ to_args c = Return a /\
       d' !! "plugins" = Some (VArgs a) /\
       dom d' = dom d /\
       forall k, k <> "plugins" -> d' !! k = d !! k) /\
  (d !! "plugins" = None ->
     modify_tracked_file_contents d = Raise (KeyError "plugins")) /\
  (forall c e, d !! "plugins" = Some (VConfig c) -> to_args c = Raise e ->
     modify_tracked_file_contents d = Raise e).
Proof.
  unfold modify_tracked_file_contents. split; [|split].
  - intros d'. destruct (d !! "plugins") as [[s|c|a]|] eqn:Hp;
      try (intros H; discriminate H).
    destruct (to_args c) as [e|a] eqn:Hc; [intros H; discriminate H|].
    intros [= <-]. exists c, a. split; [reflexivity|]. split; [exact Hc|].
    split; [apply lookup_insert_eq|]. split.
    + apply dom_insert_lookup_L. rewrite Hp. eexists. reflexivity.
    + intros k Hk. apply lookup_insert_ne. congruence.
  - intros ->. reflexivity.
  - intros c e -> ->. reflexivity.
Qed.

Lemma load_from_file_run n base w :
  load_from_file n base w =
    match files w !! get_tracked_file_location base (hash_filename n) with
    | None => (Raise FileNotFoundError, w)
    | Some d =>
        match modify_tracked_file_contents d with
        | Raise e => (Raise e, w)
        | Return d' =>
            match construct d' w with
            | (Raise e, w1) => (Raise e, w1)
            | (Return out, w1) =>
                match setup_directories base (repo out) (git w1) with
                | (Raise e, g) => (Raise e, set_git g w1)
                | (Return _, g) =>
                    (Return (set_storage
                               {| root := base; repo_url := repo out |} out),
                     set_git g w1)
                end
            end
        end
    end.
Proof.
  unfold load_from_file, initialize_storage, storage_get, of_result, setup,
    call_git, bind, ret.
  destruct (files w !! get_tracked_file_location base (hash_filename n))
    as [d|]; [|reflexivity].
  destruct (modify_tracked_file_contents d) as [e|d']; [reflexivity|].
  destruct (construct d' w) as [[e|out] w1]; [reflexivity|].
  destruct (setup_directories base (repo out) (git w1)) as [[e|u] g];
    reflexivity.
Qed.

(** A tracked file whose [plugins] entry is missing or does not decode:
    [load_from_file] raises [KeyError], or what the decoder raised, and
    sets up nothing. *)
Theorem load_rejects_bad_plugins n base w d :
  files w !! get_tracked_file_location base (hash_filename n) = Some d ->
  (d !! "plugins" = None ->
     load_from_file n base w = (Raise (KeyError "plugins"), w)) /\
  (forall c e, d !! "plugins" = Some (VConfig c) -> to_args c = Raise e ->
     load_from_file n base w = (Raise e, w)).
Proof.
  intros Hslot. rewrite load_from_file_run, Hslot.
  unfold modify_tracked_file_contents. split.
  - intros ->. reflexivity.
  - intros c e -> ->. reflexivity.
Qed.

Lemma construct_missing (d : gmap string value) k w :
  k ∈ ["repo"; "sha"; "plugins"; "baseline_filename"; "exclude_regex"] ->
  d !! k = None ->
  construct d w = (Raise TypeError, w).
Proof.
  intros Hin Hnone.
  unfold construct, bind, of_result, kw_self, kw_string, kw_args.
  destruct (d !! "self") as [?|] eqn:H0; try reflexivity.
  destruct (d !! "repo") as [[?|?|?]|] eqn:H1; try reflexivity.
  destruct (d !! "sha") as [[?|?|?]|] eqn:H2; try reflexivity.
  destruct (d !! "plugins") as [[?|?|?]|] eqn:H3; try reflexivity.
  destruct (d !! "baseline_filename") as [[?|?|?]|] eqn:H4; try reflexivity.
  destruct (d !! "exclude_regex") as [[?|?|?]|] eqn:H5; try reflexivity.
  rewrite !elem_of_cons, elem_of_nil in Hin.
  destruct Hin as [-> | [-> | [-> | [-> | [-> | []]]]]]; congruence.
Qed.

(** A tracked file that lacks one of the keywords [__init__] requires:
    [load_from_file] raises [TypeError] and sets up nothing. *)
Theorem load_rejects_missing_keyword n base w d c a k :
  files w !! get_tracked_file_location base (hash_filename n) = Some d ->
  d !! "plugins" = Some (VConfig c) ->
  to_args c = Return a ->
  k ∈ ["repo"; "sha"; "baseline_filename"; "exclude_regex"] ->
  d !! k = None ->
  load_from_file n base w = (Raise TypeError, w).
Proof.
  intros Hslot Hp Hc Hin Hnone.
  rewrite load_from_file_run, Hslot.
  unfold modify_tracked_file_contents. rewrite Hp, Hc.
  rewrite (construct_missing _ k w); [reflexivity| |].
  - rewrite !elem_of_cons, elem_of_nil in Hin.
    destruct Hin as [-> | [-> | [-> | [-> | []]]]];
      rewrite !elem_of_cons; tauto.
  - rewrite lookup_insert_ne; [exact Hnone|].
    intros <-. rewrite Hp in Hnone. discriminate Hnone.
Qed.

Lemma kw_string_inv (d : gmap string value) k s :
  kw_string d k = Return s -> d !! k = Some (VStr s).
Proof.
  unfold kw_string. destruct (d !! k) as [[?|?|?]|]; intros H;
    try discriminate H.
  injection H as ->. reflexivity.
Qed.

Lemma kw_args_inv (d : gmap string value) k a :
  kw_args d k = Return a -> d !! k = Some (VArgs a).
Proof.
  unfold kw_args. destruct (d !! k) as [[?|?|?]|]; intros H;
    try discriminate H.
  injection H as ->. reflexivity.
Qed.

Lemma kw_string_default_inv (d : gmap string value) k dflt s :
  kw_string_default d k dflt = Return s ->
  d !! k = Some (VStr s) \/ (d !! k = None /\ s = dflt).
Proof.
  unfold kw_string_default. destruct (d !! k) as [[?|?|?]|]; intros H;
    try discriminate H; injection H as ->; [left|right; split]; reflexivity.
Qed.

Lemma construct_inv (d : gmap string value) w r w' :
  construct d w = (Return r, w') ->
  d !! "repo" = Some (VStr (repo r)) /\
  d !! "sha" = Some (VStr (last_commit_hash r)) /\
  d !! "plugins" = Some (VArgs (plugin_config r)) /\
  d !! "baseline_filename" = Some (VStr (baseline_filename r)) /\
  d !! "exclude_regex" = Some (VStr (exclude_regex r)) /\
  (d !! "cron" = Some (VStr (crontab r)) \/
   (d !! "cron" = None /\ crontab r = "")) /\
  files w' = files w.
Proof.
  unfold construct, bind, of_result.
  destruct (kw_self d) as [?|[]]; [intros H; discriminate H|].
  destruct (kw_string d "repo") as [?|url] eqn:H1;
    [intros H; discriminate H|].
  destruct (kw_string d "sha") as [?|sha] eqn:H2;
    [intros H; discriminate H|].
  destruct (kw_args d "plugins") as [?|args] eqn:H3;
    [intros H; discriminate H|].
  destruct (kw_string d "baseline_filename") as [?|baseline] eqn:H4;
    [intros H; discriminate H|].
  destruct (kw_string d "exclude_regex") as [?|pattern] eqn:H5;
    [intros H; discriminate H|].
  destruct (kw_string_default d "cron" "") as [?|schedule] eqn:H6;
    [intros H; discriminate H|].
  destruct (kw_string_optional d "base_temp_dir") as [?|dir] eqn:H7;
    [intros H; discriminate H|].
  rewrite init_run.
  apply kw_string_inv in H1, H2, H4, H5. apply kw_args_inv in H3.
  apply kw_string_default_inv in H6.
  destruct (truthy dir).
  - destruct (setup_directories (default "" dir) url (git w)) as [[e|u] g];
      [intros H; discriminate H|].
    intros [= <- <-]. repeat split; assumption.
  - intros [= <- <-]. repeat split; assumption.
Qed.

(** What [load_from_file] returns reflects the tracked file: the file
    exists; its [repo], [sha], [baseline_filename] and [exclude_regex] are
    the attributes of the record; its [plugins] decodes to the
    configuration of the record; the crontab is its [cron], or empty when
    it has none.  The storage of the record is rooted at the directory
    given to [load_from_file] and tracks the repository of the record, and
    no tracked file has changed. *)
Theorem loaded_record_reflects_the_file n base w r w' :
  load_from_file n base w = (Return r, w') ->
  exists d c,
    files w !! get_tracked_file_location base (hash_filename n) = Some d /\
    d !! "plugins" = Some (VConfig c) /\
    to_args c = Return (plugin_config r) /\
    d !! "repo" = Some (VStr (repo r)) /\
    d !! "sha" = Some (VStr (last_commit_hash r)) /\
    d !! "baseline_filename" = Some (VStr (baseline_filename r)) /\
    d !! "exclude_regex" = Some (VStr (exclude_regex r)) /\
    (d !! "cron" = Some (VStr (crontab r)) \/
     (d !! "cron" = None /\ crontab r = "")) /\
    storage r = Some {| root := base; repo_url := repo r |} /\
    files w' = files w.
Proof.
  rewrite load_from_file_run.
  destruct (files w !! get_tracked_file_location base (hash_filename n))
    as [d|]; [|intros H; discriminate H].
  unfold modify_tracked_file_contents.
  destruct (d !! "plugins") as [[s|c|a0]|] eqn:Hp;
    try (intros H; discriminate H).
  destruct (to_args c) as [e|a] eqn:Hc; [intros H; discriminate H|].
  destruct (construct (<["plugins" := VArgs a]> d) w) as [[e|out] w1]
    eqn:Hbuild; [intros H; discriminate H|].
  destruct (setup_directories base (repo out) (git w1)) as [[e|u] g];
    [intros H; discriminate H|].
  intros [= <- <-].
  destruct (construct_inv _ _ _ _ Hbuild)
    as (H1 & H2 & H3 & H4 & H5 & H6 & Hfiles).
  rewrite lookup_insert_eq in H3. injection H3 as H3.
  rewrite lookup_insert_ne in H1, H2, H4, H5, H6 by discriminate.
  exists d, c. cbn [repo last_commit_hash plugin_config baseline_filename
                    exclude_regex crontab storage set_storage files set_git].
  rewrite <- H3. repeat split; try assumption.
Qed.

Lemma kw_string_insert (d : gmap string value) k v k' :
  k <> k' -> kw_string (<[k := v]> d) k' = kw_string d k'.
Proof. intros H. unfold kw_string. rewrite lookup_insert_ne by exact H. reflexivity. Qed.

Lemma kw_args_insert (d : gmap string value) k v k' :
  k <> k' -> kw_args (<[k := v]> d) k' = kw_args d k'.
Proof. intros H. unfold kw_args. rewrite lookup_insert_ne by exact H. reflexivity. Qed.

Lemma kw_string_default_insert (d : gmap string value) k v k' dflt :
  k <> k' -> kw_string_default (<[k := v]> d) k' dflt = kw_string_default d k' dflt.
Proof.
  intros H. unfold kw_string_default. rewrite lookup_insert_ne by exact H.
  reflexivity.
Qed.

Lemma kw_string_optional_insert (d : gmap string value) k v k' :
  k <> k' -> kw_string_optional (<[k := v]> d) k' = kw_string_optional d k'.
Proof.
  intros H. unfold kw_string_optional. rewrite lookup_insert_ne by exact H.
  reflexivity.
Qed.

Lemma kw_self_insert (d : gmap string value) k v :
  k <> "self" -> kw_self (<[k := v]> d) = kw_self d.
Proof.
  intros H. unfold kw_self. rewrite lookup_insert_ne by exact H. reflexivity.
Qed.

Lemma construct_insert (d : gmap string value) k v w :
  k ∉ parameter_names -> construct (<[k := v]> d) w = construct d w.
Proof.
  unfold parameter_names. rewrite !not_elem_of_cons.
  intros (H0 & H1 & H2 & H3 & H4 & H5 & H6 & H7 & _).
  unfold construct.
  rewrite kw_self_insert, !kw_string_insert, kw_args_insert,
    kw_string_default_insert, kw_string_optional_insert by assumption.
  reflexivity.
Qed.

Lemma construct_set_files (d : gmap string value) f w :
  construct d (set_files f w) =
    (fst (construct d w), set_files f (snd (construct d w))).
Proof.
  unfold construct, bind, of_result.
  destruct (kw_self d) as [?|[]]; [reflexivity|].
  destruct (kw_string d "repo") as [?|url]; [reflexivity|].
  destruct (kw_string d "sha") as [?|sha]; [reflexivity|].
  destruct (kw_args d "plugins") as [?|args]; [reflexivity|].
  destruct (kw_string d "baseline_filename") as [?|baseline]; [reflexivity|].
  destruct (kw_string d "exclude_regex") as [?|pattern]; [reflexivity|].
  destruct (kw_string_default d "cron" "") as [?|schedule]; [reflexivity|].
  destruct (kw_string_optional d "base_temp_dir") as [?|dir]; [reflexivity|].
  rewrite !init_run. cbn [git set_files].
  destruct (truthy dir); [|reflexivity].
  destruct (setup_directories (default "" dir) url (git w)) as [[e|u] g];
    reflexivity.
Qed.

(** Keys of the tracked file that [__init__] does not name ([self] is one
    it names) go to its [**kwargs] and are dropped: with such an entry
    added to the file, [load_from_file] returns the same record, or
    raises the same exception.  A file with an entry [self] is refused
    with [TypeError], and nothing is set up. *)
Theorem load_ignores_other_keys n base w d k v :
  files w !! get_tracked_file_location base (hash_filename n) = Some d ->
  k ∉ parameter_names ->
  fst (load_from_file n base
         (set_files (<[get_tracked_file_location base (hash_filename n)
                        := <[k := v]> d]> (files w)) w))
  = fst (load_from_file n base w) /\
  (forall c a, d !! "plugins" = Some (VConfig c) -> to_args c = Return a ->
     is_Some (d !! "self") ->
     load_from_file n base w = (Raise TypeError, w)).
Proof.
  intros Hslot Hk. split; cycle 1.
  { intros c a Hp Hc [x Hself]. rewrite load_from_file_run, Hslot.
    unfold modify_tracked_file_contents. rewrite Hp, Hc.
    unfold construct, bind, of_result, kw_self.
    rewrite lookup_insert_ne by discriminate. rewrite Hself. reflexivity. }
  assert (Hp : k <> "plugins").
  { intros ->. apply Hk. unfold parameter_names. rewrite !elem_of_cons. tauto. }
  rewrite !load_from_file_run. cbn [files set_files].
  rewrite lookup_insert_eq, Hslot.
  unfold modify_tracked_file_contents.
  rewrite lookup_insert_ne by exact Hp.
  destruct (d !! "plugins") as [[s|c|a0]|]; try reflexivity.
  destruct (to_args c) as [e|a]; [reflexivity|].
  rewrite (insert_insert_ne _ "plugins" k) by congruence.
  rewrite construct_set_files, construct_insert by exact Hk.
  destruct (construct (<["plugins" := VArgs a]> d) w) as [[e|out] w1];
    cbn [fst snd]; [reflexivity|].
  cbn [git set_files].
  destruct (setup_directories base (repo out) (git w1)) as [[e|u] g];
    reflexivity.
Qed.

(** ** The storage of a record *)

Lemma scan_frame r w : same_but_checkpoint r (fst (snd (scan (r, w)))).
Proof.
  destruct (storage r) as [st|] eqn:Hst.
  - rewrite (scan_run r w st Hst).
    destruct (clone_and_pull_master st (git w)) as [[e1|u] g1];
      [apply same_but_checkpoint_refl|].
    destruct (get_diff st (last_commit_hash r) g1) as [[e2|diff] g2].
    + destruct e2; try apply same_but_checkpoint_refl.
      destruct (get_last_commit_hash st g2) as [[e3|sha] g3];
        [apply same_but_checkpoint_refl|apply same_but_checkpoint_set].
    + destruct (get_baseline_file st (baseline_filename r) g2)
        as [[e3|baseline] g3]; apply same_but_checkpoint_refl.
  - rewrite (scan_uninitialized r w Hst). apply same_but_checkpoint_refl.
Qed.

Lemma save_self r w lvl : fst (snd (save lvl (r, w))) = r.
Proof.
  destruct (storage r) as [st|] eqn:Hst.
  - rewrite (save_run r w st lvl Hst).
    destruct (bool_decide (is_Some (files w !! tracked_file st)));
      [|apply after_put_frame].
    destruct lvl; [reflexivity| |apply after_put_frame].
    destruct (prompt_frame r w st Hst) as (Hr & _).
    destruct (_prompt_user_override (r, w)) as [[e|[]] [r' w']];
      cbn [fst snd] in *; try congruence.
    apply after_put_frame.
  - rewrite (save_uninitialized r w lvl Hst). reflexivity.
Qed.

Lemma tracks_own_repo_same r r' :
  same_but_checkpoint r r' -> tracks_own_repo r -> tracks_own_repo r'.
Proof.
  intros (Hrepo & _ & _ & _ & _ & Hst) Htracks st Hst'.
  rewrite Hrepo. apply Htracks. rewrite <- Hst. exact Hst'.
Qed.

(** The storage of a record tracks the repository of the record: this
    holds of what [load_from_file] returns, and [scan], [update] and
    [save] keep it, whatever their outcome.  The name of such a record is
    the name the storage class gives to its repository. *)
Theorem storage_tracks_the_repository :
  (forall n base w r w',
     load_from_file n base w = (Return r, w') -> tracks_own_repo r) /\
  (forall r w, tracks_own_repo r ->
     tracks_own_repo (fst (snd (scan (r, w)))) /\
     tracks_own_repo (fst (snd (update (r, w)))) /\
     forall lvl, tracks_own_repo (fst (snd (save lvl (r, w))))) /\
  (forall r w st, tracks_own_repo r -> storage r = Some st ->
     name (r, w) = (Return (repository_name_of (repo r)), (r, w))).
Proof.
  split; [|split].
  - intros n base w r w'. rewrite load_from_file_run.
    destruct (files w !! get_tracked_file_location base (hash_filename n))
      as [d|]; [|intros H; discriminate H].
    destruct (modify_tracked_file_contents d) as [e|d'];
      [intros H; discriminate H|].
    destruct (construct d' w) as [[e|out] w1]; [intros H; discriminate H|].
    destruct (setup_directories base (repo out) (git w1)) as [[e|u] g];
      [intros H; discriminate H|].
    intros [= <- <-] st [= <-]. reflexivity.
  - intros r w Htracks. split; [|split].
    + exact (tracks_own_repo_same _ _ (scan_frame r w) Htracks).
    + exact (tracks_own_repo_same _ _ (update_frame r w) Htracks).
    + intros lvl. rewrite save_self. exact Htracks.
  - intros r w st Htracks Hst. rewrite (name_run r w st Hst).
    unfold repository_name. rewrite (Htracks st Hst). reflexivity.
Qed.

End Further.

(** * The properties on the in-memory collaborators *)

Module Examples.

Import Fake.

#[local] Existing Instance codec.
#[local] Existing Instance engine.
#[local] Existing Instance storage_class.

(** A stale checkpoint: [scan] returns no secret and moves the checkpoint
    to the head [c2]. *)
Lemma scan_unreachable_checkpoint_resyncs_witness :
  scan' (stale, world) =
    (Return {| plugins := ["--hex-limit"; "3"]; exclude := ""; data := [] |},
     (set_last_commit_hash "c2" stale, world)) /\
  last_commit_hash (fst (snd (scan' (stale, world)))) = "c2".
Proof.
  destruct (@scan_unreachable_checkpoint_resyncs codec engine storage_class
              stale world handle clone clone "c2" clone
              eq_refl eq_refl eq_refl eq_refl) as (Hrun & _ & Hhead).
  split; [exact Hrun|exact Hhead].
Defined.

(** A reachable checkpoint: [scan] finds secrets and leaves the record. *)
Lemma scan_success_keeps_checkpoint_witness :
  takes_except_branch tracked world = false /\
  fst (scan' (tracked, world)) =
    Return {| plugins := []; exclude := ""; data := ["a"; "c"] |} /\
  last_commit_hash (fst (snd (scan' (tracked, world)))) = "c1".
Proof.
  split; [reflexivity|]. split; [reflexivity|].
  exact (proj2 (@scan_success_keeps_checkpoint codec engine storage_class
                  tracked world eq_refl)).
Defined.

(** The diff shows [a], [b] and [c]: with the baseline [b] the result is
    [a] and [c]; without a baseline file it is all three. *)
Lemma scan_baseline_filtering_witness :
  fst (scan' (tracked, world)) =
    Return {| plugins := []; exclude := ""; data := ["a"; "c"] |} /\
  fst (scan' (tracked, world_without_baseline)) =
    Return {| plugins := ["--hex-limit"; "3"]; exclude := "";
              data := ["a"; "b"; "c"] |}.
Proof.
  split.
  - refine (proj1 (@scan_baseline_filtering codec engine storage_class
                     tracked world handle clone "a b c" clone (Some "b")
                     clone eq_refl eq_refl eq_refl eq_refl)
                  "b" eq_refl _).
    discriminate.
  - refine (proj2 (@scan_baseline_filtering codec engine storage_class
                     tracked world_without_baseline handle
                     (git world_without_baseline) "a b c"
                     (git world_without_baseline) None
                     (git world_without_baseline)
                     eq_refl eq_refl eq_refl eq_refl)
                  (or_introl eq_refl)).
Defined.

(** The rows of the override matrix, and a [put] that fails. *)
Lemma save_override_matrix_witness :
  save' NEVER (tracked, world) = (Return true, (tracked, saved_world)) /\
  save' NEVER (read_only, world) = (Raise OSError, (read_only, world)) /\
  save' NEVER (tracked, world_with_record [])
    = (Return false, (tracked, world_with_record [])) /\
  fst (save' ALWAYS (tracked, world_with_record [])) = Return true /\
  files (snd (snd (save' ALWAYS (tracked, world_with_record []))))
    !! tracked_path = Some (__dict__ tracked) /\
  fst (save' ASK_USER (tracked, world_with_record ["maybe"; "N"]))
    = Return false /\
  files (snd (snd (save' ASK_USER (tracked, world_with_record ["maybe"; "N"]))))
    !! tracked_path = Some (__dict__ stale) /\
  fst (save' ASK_USER (tracked, world_with_record ["Y"])) = Return true /\
  files (snd (snd (save' ASK_USER (tracked, world_with_record ["Y"]))))
    !! tracked_path = Some (__dict__ tracked).
Proof.
  assert (Hsome : forall answers,
            is_Some (files (world_with_record answers) !! tracked_file handle)).
  { intros answers. eexists. reflexivity. }
  destruct (@save_override_matrix codec storage_class
              tracked world handle eq_refl) as (Hfree & _).
  destruct (Hfree eq_refl NEVER) as (Hsaved & _).
  destruct (@save_override_matrix codec storage_class
              read_only world {| root := "/read-only"; repo_url := url |}
              eq_refl) as (Hdenied & _).
  destruct (Hdenied eq_refl NEVER) as (_ & Hraised).
  destruct (@save_override_matrix codec storage_class
              tracked (world_with_record []) handle eq_refl)
    as (_ & Hkept).
  destruct (Hkept (Hsome [])) as (Hnever & Halways & _ & _ & _).
  destruct (@save_override_matrix codec storage_class
              tracked (world_with_record ["maybe"; "N"]) handle eq_refl)
    as (_ & Hno).
  destruct (Hno (Hsome _)) as (_ & _ & _ & Hno' & _).
  destruct (Hno' (snd (snd (@_prompt_user_override codec storage_class
                              (tracked, world_with_record ["maybe"; "N"]))))
                 eq_refl) as (Hdeclined & _).
  destruct (@save_override_matrix codec storage_class
              tracked (world_with_record ["Y"]) handle eq_refl)
    as (_ & Hyes).
  destruct (Hyes (Hsome _)) as (_ & _ & _ & _ & Hyes').
  destruct (Hyes' (snd (snd (@_prompt_user_override codec storage_class
                               (tracked, world_with_record ["Y"]))))
                  eq_refl) as (Haccepted & _).
  destruct (Haccepted eq_refl) as (Haccepted' & _).
  split; [exact (Hsaved eq_refl)|].
  split; [exact (Hraised OSError eq_refl)|].
  split; [exact Hnever|].
  rewrite (Halways eq_refl), Hdeclined, Haccepted'.
  repeat split.
Defined.

(** A record built without a directory. *)
Lemma uninitialized_storage_fails_fast_witness :
  truthy None = false /\
  exists r : Repo,
    @__init__ codec storage_class url "c1" ["--hex-limit"; "3"]
      ".secrets.baseline" "" "0 0 * * *" None world = (Return r, world) /\
    storage r = None /\
    forall w' : Env,
      scan' (r, w') = (Raise AttributeError, (r, w')) /\
      @update codec storage_class (r, w') = (Raise AttributeError, (r, w')) /\
      @name codec storage_class (r, w') = (Raise AttributeError, (r, w')) /\
      forall lvl, save' lvl (r, w') = (Raise AttributeError, (r, w')).
Proof.
  split; [reflexivity|].
  exact (@uninitialized_storage_fails_fast codec engine storage_class
           url "c1" ["--hex-limit"; "3"] ".secrets.baseline" "" "0 0 * * *"
           None world eq_refl).
Defined.

(** Nothing was saved in [world]. *)
Lemma load_missing_record_fails_witness :
  load' "owner/project" "/tmp/server" world
    = (Raise FileNotFoundError, world).
Proof.
  exact (proj1 (@load_missing_record_fails codec storage_class
                  "owner/project" "/tmp/server" world eq_refl)).
Defined.



(** Built, saved, and loaded by name. *)
Lemma save_then_load_by_name_round_trip_witness :
  load' "owner/project" "/tmp/server" saved_world
    = (Return tracked, saved_world).
Proof.
  destruct (@save_then_load_by_name_round_trip codec storage_class
              url "c1" ["--hex-limit"; "3"] ".secrets.baseline" ""
              "0 0 * * *" "/tmp/server" ALWAYS world tracked world
              (tracked, saved_world) ["--hex-limit"; "3"] clone
              eq_refl eq_refl eq_refl eq_refl)
    as (r' & Hload & _ & _ & _ & _ & _ & _ & Hsame).
  rewrite <- (Hsame eq_refl). exact Hload.
Defined.

(** Where the storage gives a repository another name than the string
    that identifies it, the record is saved under the name: [tracked], of
    [git@github.com:owner/project], is stored under [owner/project], and
    [load_from_file] given the former finds nothing. *)
Lemma record_of_a_url_is_saved_under_its_name :
  save' ALWAYS (tracked, world) = (Return true, (tracked, saved_world)) /\
  files saved_world
    !! get_tracked_file_location "/tmp/server"
         (hash_filename (repository_name handle))
    = Some (__dict__ tracked) /\
  files saved_world
    !! get_tracked_file_location "/tmp/server" (hash_filename (repo tracked))
    = None /\
  load' (repo tracked) "/tmp/server" saved_world
    = (Raise FileNotFoundError, saved_world).
Proof. repeat split. Qed.

End Examples.

(** * The further properties on the in-memory collaborators *)

Module FurtherExamples.

Import Fake.

#[local] Existing Instance codec.
#[local] Existing Instance engine.
#[local] Existing Instance storage_class.

(** The head stays [c2]: the second [update] changes nothing. *)
Lemma update_twice_is_update_witness :
  update (snd (update (tracked, world)))
    = (Return tt, snd (update (tracked, world))) /\
  last_commit_hash (fst (snd (update (tracked, world)))) = "c2".
Proof.
  exact (@update_twice_is_update codec storage_class tracked world handle
           "c2" clone eq_refl eq_refl eq_refl).
Defined.


(** [maybe] is skipped, [N] is the answer, [y] is left unread. *)
Lemma prompt_reads_up_to_the_answer_witness :
  _prompt_user_override (tracked, world_with_record ["maybe"; "N"; "y"])
    = (Return false,
       (tracked,
        prompted (world_with_record ["maybe"; "N"; "y"])
          (override_prompt "owner/project") 2 ["y"] Stdout)).
Proof.
  refine (@prompt_reads_up_to_the_answer codec storage_class tracked
            (world_with_record ["maybe"; "N"; "y"]) handle
            ["maybe"] "N" ["y"] eq_refl eq_refl _ eq_refl).
  repeat constructor.
Defined.

(** Neither [maybe] nor the empty line is an answer. *)
Lemma prompt_without_answer_raises_witness :
  save' ASK_USER (tracked, world_with_record ["maybe"; ""])
    = (Raise EOFError,
       (tracked,
        prompted (world_with_record ["maybe"; ""])
          (override_prompt "owner/project") 3 [] Stderr)).
Proof.
  refine (proj2 (@prompt_without_answer_raises codec storage_class tracked
                   (world_with_record ["maybe"; ""]) handle eq_refl _) _).
  - repeat constructor.
  - eexists. reflexivity.
Defined.

(** Overwriting after the answer [Y]. *)
Lemma save_touches_its_tracked_file_only_witness :
  fst (snd (save' ASK_USER (tracked, world_with_record ["Y"]))) = tracked /\
  git (snd (snd (save' ASK_USER (tracked, world_with_record ["Y"])))) = clone /\
  files (snd (snd (save' ASK_USER (tracked, world_with_record ["Y"]))))
    !! "/tmp/server/tracked/other.json" = None.
Proof.
  destruct (@save_touches_its_tracked_file_only codec storage_class tracked
              (world_with_record ["Y"]) handle ASK_USER eq_refl)
    as (Hself & Hgit & Hfiles & _).
  split; [exact Hself|]. split; [exact Hgit|].
  rewrite Hfiles; [reflexivity|discriminate].
Defined.

(** Saved once, [tracked] is not saved again with [NEVER]. *)
Lemma saved_record_is_tracked_witness :
  save' NEVER (tracked, saved_world) = (Return false, (tracked, saved_world)).
Proof.
  exact (proj1 (@saved_record_is_tracked codec storage_class tracked world
                  handle ALWAYS (tracked, saved_world) eq_refl eq_refl)).
Defined.

(** The checkpoint [c1] is moved to the head [c2], which is then saved. *)
Lemma update_then_save_persists_head_witness :
  fst (save' ALWAYS (snd (update (tracked, world)))) = Return true /\
  exists d,
    files (snd (snd (save' ALWAYS (snd (update (tracked, world))))))
      !! tracked_path = Some d /\
    d !! "sha" = Some (VStr "c2") /\
    d !! "repo" = Some (VStr url).
Proof.
  exact (@update_then_save_persists_head codec storage_class tracked world
           handle "c2" clone eq_refl eq_refl eq_refl).
Defined.

(** The line for the crontab, and the record found under the name in it. *)
Lemma cron_names_the_saved_record_witness :
  cron (tracked, world)
    = (Return "0 0 * * *    detect-secrets-server --scan-repo owner/project",
       (tracked, world)) /\
  load' "owner/project" "/tmp/server" saved_world
    = (Return tracked, saved_world).
Proof.
  destruct (proj2 (@cron_names_the_saved_record codec storage_class
                     tracked world) handle eq_refl) as (Hcron & Hload).
  split; [exact Hcron|].
  exact (Hload ALWAYS (tracked, saved_world) ["--hex-limit"; "3"] clone
           eq_refl eq_refl eq_refl).
Defined.

(** A tracked file without its [plugins] entry. *)
Lemma load_rejects_bad_plugins_witness :
  load' "owner/project" "/tmp/server"
      (world_with_file (delete "plugins" (__dict__ tracked)))
    = (Raise (KeyError "plugins"),
       world_with_file (delete "plugins" (__dict__ tracked))).
Proof.
  exact (proj1 (@load_rejects_bad_plugins codec storage_class
                  "owner/project" "/tmp/server"
                  (world_with_file (delete "plugins" (__dict__ tracked)))
                  (delete "plugins" (__dict__ tracked)) eq_refl)
               eq_refl).
Defined.

(** A tracked file without its [sha] entry. *)
Lemma load_rejects_missing_keyword_witness :
  load' "owner/project" "/tmp/server"
      (world_with_file (delete "sha" (__dict__ tracked)))
    = (Raise TypeError, world_with_file (delete "sha" (__dict__ tracked))).
Proof.
  refine (@load_rejects_missing_keyword codec storage_class
            "owner/project" "/tmp/server"
            (world_with_file (delete "sha" (__dict__ tracked)))
            (delete "sha" (__dict__ tracked))
            [("--hex-limit", "3")] ["--hex-limit"; "3"] "sha"
            eq_refl eq_refl eq_refl _ eq_refl).
  repeat constructor.
Defined.

(** The record loaded from [saved_world] is [tracked]; the file holds its
    checkpoint [c1]. *)
Lemma loaded_record_reflects_the_file_witness :
  load' "owner/project" "/tmp/server" saved_world
    = (Return tracked, saved_world) /\
  exists d,
    files saved_world !! tracked_path = Some d /\
    d !! "sha" = Some (VStr "c1").
Proof.
  split; [reflexivity|].
  destruct (@loaded_record_reflects_the_file codec storage_class
              "owner/project" "/tmp/server" saved_world tracked saved_world
              eq_refl)
    as (d & c & Hslot & _ & _ & _ & Hsha & _).
  exists d. split; [exact Hslot|exact Hsha].
Defined.

(** An entry [comment] in the tracked file makes no difference. *)
Lemma load_ignores_other_keys_witness :
  fst (load' "owner/project" "/tmp/server"
         (set_files
            (<[tracked_path := <["comment" := VStr "reviewed"]>
                                 (__dict__ tracked)]> (files saved_world))
            saved_world))
  = Return tracked.
Proof.
  refine (eq_trans
            (proj1 (@load_ignores_other_keys codec storage_class
                      "owner/project" "/tmp/server" saved_world
                      (__dict__ tracked) "comment" (VStr "reviewed")
                      eq_refl _)) _).
  - unfold parameter_names. rewrite !not_elem_of_cons.
    repeat split; try discriminate. apply not_elem_of_nil.
  - reflexivity.
Defined.

End FurtherExamples.
